(** * Body cards of the HTTP Toolkit UI: content-type selection and
      text/bytes conversion

    A shallow embedding of
    - [HttpBreakpointBodyCard] (the editable breakpoint body card),
    - [SentResponseBodyCard] (the read-only response body card of the
      send pane), and
    - [getBodyDownloadFilename] / [EditableBodyCardHeader]
      (components/editor/body-card-components.tsx),
    together with the properties the specification states about them. *)

From Stdlib Require Import ZArith List Lia Bool String Ascii.
Import ListNotations.

Open Scope Z_scope.

(* ================================================================== *)
(** ** Buffers, JS strings and the two text encodings                  *)
(* ================================================================== *)

Module TextEncoding.

(** A Node [Buffer] is a sequence of octets; each element lies in
    [0, 256). *)
Definition Buffer := list Z.

Definition isByte (b : Z) : Prop := 0 <= b < 256.

Definition isBuffer (b : Buffer) : Prop := Forall isByte b.

(** A JS string is a sequence of UTF-16 code units. *)
Definition JSString := list Z.

(** The two encodings [textEncoding] chooses between. *)
Inductive BufferEncoding : Set := utf8 | binary.

Definition inRange (lo hi b : Z) : bool := (lo <=? b) && (b <=? hi).

(** Admissible range of the second byte of a multi-byte sequence, by lead
    byte (the well-formed byte sequences of the Unicode standard: no
    overlong forms, no surrogates, nothing above U+10FFFF). *)
Definition secondLo (b0 : Z) : Z :=
  if b0 =? 0xE0 then 0xA0 else if b0 =? 0xF0 then 0x90 else 0x80.

Definition secondHi (b0 : Z) : Z :=
  if b0 =? 0xED then 0x9F else if b0 =? 0xF4 then 0x8F else 0xBF.

(** UTF-8 decoding. Each well-formed sequence yields [Some] code point;
    each maximal ill-formed subpart yields [None], and decoding resumes at
    the byte that broke the sequence. *)
Fixpoint utf8Decode (bs : Buffer) : list (option Z) :=
  match bs with
  | [] => []
  | b0 :: r0 =>
    if b0 <? 0x80 then Some b0 :: utf8Decode r0
    else if inRange 0xC2 0xDF b0 then
      match r0 with
      | [] => [None]
      | b1 :: r1 =>
        if inRange 0x80 0xBF b1
        then Some ((b0 - 0xC0) * 64 + (b1 - 0x80)) :: utf8Decode r1
        else None :: utf8Decode r0
      end
    else if inRange 0xE0 0xEF b0 then
      match r0 with
      | [] => [None]
      | b1 :: r1 =>
        if inRange (secondLo b0) (secondHi b0) b1 then
          match r1 with
          | [] => [None]
          | b2 :: r2 =>
            if inRange 0x80 0xBF b2
            then Some ((b0 - 0xE0) * 4096 + (b1 - 0x80) * 64 + (b2 - 0x80))
                   :: utf8Decode r2
            else None :: utf8Decode r1
          end
        else None :: utf8Decode r0
      end
    else if inRange 0xF0 0xF4 b0 then
      match r0 with
      | [] => [None]
      | b1 :: r1 =>
        if inRange (secondLo b0) (secondHi b0) b1 then
          match r1 with
          | [] => [None]
          | b2 :: r2 =>
            if inRange 0x80 0xBF b2 then
              match r2 with
              | [] => [None]
              | b3 :: r3 =>
                if inRange 0x80 0xBF b3
                then Some ((b0 - 0xF0) * 262144 + (b1 - 0x80) * 4096
                           + (b2 - 0x80) * 64 + (b3 - 0x80))
                       :: utf8Decode r3
                else None :: utf8Decode r2
              end
            else None :: utf8Decode r1
          end
        else None :: utf8Decode r0
      end
    else None :: utf8Decode r0
  end.

(** U+FFFD, substituted for whatever cannot be decoded or encoded. *)
Definition REPLACEMENT : Z := 0xFFFD.

Definition orReplacement (o : option Z) : Z :=
  match o with Some c => c | None => REPLACEMENT end.

Definition isSome {A} (o : option A) : bool :=
  match o with Some _ => true | None => false end.

(** The code points that are Unicode scalar values. *)
Definition isScalar (c : Z) : Prop :=
  0 <= c < 0xD800 \/ 0xE000 <= c <= 0x10FFFF.

(** UTF-8 encoding of one code point. *)
Definition utf8EncodeCodePoint (c : Z) : Buffer :=
  if c <? 0x80 then [c]
  else if c <? 0x800 then [0xC0 + c / 64; 0x80 + c mod 64]
  else if c <? 0x10000 then
    [0xE0 + c / 4096; 0x80 + (c / 64) mod 64; 0x80 + c mod 64]
  else
    [0xF0 + c / 262144; 0x80 + (c / 4096) mod 64;
     0x80 + (c / 64) mod 64; 0x80 + c mod 64].

(** UTF-16: a code point above the BMP becomes a surrogate pair. *)
Definition utf16Units (c : Z) : JSString :=
  if c <? 0x10000 then [c]
  else [0xD800 + (c - 0x10000) / 1024; 0xDC00 + (c - 0x10000) mod 1024].

Definition isHighSurrogate (u : Z) : bool := inRange 0xD800 0xDBFF u.
Definition isLowSurrogate (u : Z) : bool := inRange 0xDC00 0xDFFF u.

(** Code points of a JS string; a lone surrogate reads as U+FFFD, which is
    what encoding the string as UTF-8 writes for it. *)
Fixpoint utf16CodePoints (s : JSString) : list Z :=
  match s with
  | [] => []
  | u :: r =>
    if isHighSurrogate u then
      match r with
      | [] => [REPLACEMENT]
      | l :: r' =>
        if isLowSurrogate l
        then (0x10000 + (u - 0xD800) * 1024 + (l - 0xDC00)) :: utf16CodePoints r'
        else REPLACEMENT :: utf16CodePoints r
      end
    else if isLowSurrogate u then REPLACEMENT :: utf16CodePoints r
    else u :: utf16CodePoints r
  end.

(** Modelled from the spec: [bufferToString] of util, whose source is
    missing; the spec's [toText]: the standard UTF-8 mapping for [utf8], and one
    character per byte (Latin-1) for [binary]. *)
Definition bufferToString (buffer : Buffer) (encoding : BufferEncoding)
  : JSString :=
  match encoding with
  | utf8 => flat_map utf16Units (map orReplacement (utf8Decode buffer))
  | binary => buffer
  end.

(** Modelled from the spec: [stringToBuffer] of util, whose source is
    missing; the spec's [fromText]: the standard UTF-8 mapping for [utf8], and one
    byte per character (the low eight bits of each code unit) for
    [binary]. *)
Definition stringToBuffer (s : JSString) (encoding : BufferEncoding)
  : Buffer :=
  match encoding with
  | utf8 => flat_map utf8EncodeCodePoint (utf16CodePoints s)
  | binary => map (fun u => u mod 256) s
  end.

(** A control byte that is not common whitespace (tab, LF, CR). *)
Definition isControlByte (b : Z) : bool :=
  ((b <? 0x20) && negb ((b =? 9) || (b =? 10) || (b =? 13))) || (b =? 0x7F).

Definition countControl (bs : Buffer) : Z :=
  Z.of_nat (List.length (filter isControlByte bs)).

(** The control bytes dominate when they are more than half of the
    buffer. *)
Definition controlDominated (bs : Buffer) : bool :=
  Z.of_nat (List.length bs) <? 2 * countControl bs.

Definition strictlyUtf8 (bs : Buffer) : bool :=
  forallb isSome (utf8Decode bs).

(** Modelled from the spec: [isProbablyUtf8] of util, whose source is
    missing; the decision rule of the spec's [classify]: the bytes decode as UTF-8
    without any invalid sequence, and are not dominated by control bytes
    outside common whitespace. *)
Definition isProbablyUtf8 (bs : Buffer) : bool :=
  strictlyUtf8 bs && negb (controlDominated bs).

End TextEncoding.

(* ================================================================== *)
(** ** JS values the cards work with                                   *)
(* ================================================================== *)

Module JS.
Import TextEncoding.

(** A string literal of the source, as code units. *)
Definition lit (s : string) : JSString :=
  map (fun a => Z.of_N (N_of_ascii a)) (list_ascii_of_string s).

Definition eqbString (s t : JSString) : bool :=
  if list_eq_dec Z.eq_dec s t then true else false.

(** [s.split(sep)] for a separator of one code unit: never empty. *)
Fixpoint split (sep : Z) (s : JSString) : list JSString :=
  match s with
  | [] => [[]]
  | c :: r =>
    if c =? sep then [] :: split sep r
    else match split sep r with
         | [] => [[c]]
         | seg :: segs => (c :: seg) :: segs
         end
  end.

(** lodash [_.last]: [undefined] on an empty array. *)
Fixpoint last {A} (l : list A) : option A :=
  match l with
  | [] => None
  | [x] => Some x
  | _ :: r => last r
  end.

(** [s.includes(c)] for a needle of one code unit. *)
Definition includes (c : Z) (s : JSString) : bool :=
  existsb (Z.eqb c) s.

(** [s] starts with [p]: what follows the prefix. *)
Fixpoint stripPrefix (p s : JSString) : option JSString :=
  match p, s with
  | [], _ => Some s
  | _ :: _, [] => None
  | a :: p', c :: s' => if a =? c then stripPrefix p' s' else None
  end.

(** The longest prefix of [s] on which [f] holds, and the rest. *)
Fixpoint span (f : Z -> bool) (s : JSString) : JSString * JSString :=
  match s with
  | [] => ([], [])
  | c :: r =>
    if f c then let (a, b) := span f r in (c :: a, b) else ([], s)
  end.

(** What a thrown exception or a returned value leaves behind. *)
Inductive Outcome (A : Type) : Type :=
| Returned (a : A)
| TypeError.

Arguments Returned {A} a.
Arguments TypeError {A}.

Definition bind {A B} (o : Outcome A) (k : A -> Outcome B) : Outcome B :=
  match o with
  | Returned a => k a
  | TypeError => TypeError
  end.

(** Reading a property of [x]: a [TypeError] when [x] is [undefined]. *)
Definition deref {A} (x : option A) : Outcome A :=
  match x with
  | Some a => Returned a
  | None => TypeError
  end.

End JS.

Notation "x <- c ;; k" := (JS.bind c (fun x => k))
  (at level 61, c at next level, right associativity).

(* ================================================================== *)
(** ** Messages, headers, content types                                *)
(* ================================================================== *)

Module Types.
Import TextEncoding JS.

(** The content-type tags are string literal types in the source
    (['text'], ['raw'], ['json'], ...). *)
Definition ViewableContentType := string.
Definition EditableContentType := string.

(** A value of a [Headers] object: one string or several. *)
Inductive HeaderValue : Type :=
| Single (v : JSString)
| Multiple (vs : list JSString).

(** [Headers]: an object from header name to value. *)
Definition Headers := list (JSString * HeaderValue).

(** [RawHeaders]: the name/value pairs in wire order. *)
Definition RawHeaders := list (JSString * JSString).

(** The argument of the header helpers: [Headers | RawHeaders]. *)
Inductive AnyHeaders : Type :=
| OfHeaders (h : Headers)
| OfRawHeaders (h : RawHeaders).

(** [headers[name]] *)
Fixpoint prop (name : JSString) (h : Headers) : option HeaderValue :=
  match h with
  | [] => None
  | (k, v) :: r => if eqbString k name then Some v else prop name r
  end.

Record ErrorLike : Type := {
  code : option JSString;
  message : option JSString
}.

(** [body.encoded] is a [Buffer] or something that is not one. *)
Inductive EncodedBody : Type :=
| EncodedBuffer (b : Buffer)
| NotABuffer.

Record MessageBody : Type := {
  encoded : EncodedBody;
  decoded : option Buffer;
  decodingError : option ErrorLike
}.

Record ExchangeMessage : Type := {
  id : JSString;
  contentType : ViewableContentType;
  headers : Headers;
  rawHeaders : RawHeaders;
  body : MessageBody
}.

(** The helpers of util/headers, whose source is missing: the cards are
    stated over any implementation of them. *)
Class HeadersUtil : Type := {
  getHeaderValue : AnyHeaders -> JSString -> option JSString;
  lastHeader : option HeaderValue -> option JSString
}.

(** What the cards use of model/events/content-types, whose source is
    missing. *)
Class ContentTypes : Type := {
  getCompatibleTypes :
    ViewableContentType -> option JSString -> MessageBody ->
    list ViewableContentType;
  getEditableContentType : option JSString -> option EditableContentType;
  EditableContentTypes : list EditableContentType
}.

(** lodash [_.includes] on an array of tags, for a value that may be
    [undefined] (which no array of tags contains). *)
Definition includesType (l : list ViewableContentType)
    (x : option ViewableContentType) : bool :=
  match x with
  | None => false
  | Some c => existsb (String.eqb c) l
  end.

End Types.

(* ================================================================== *)
(** ** components/editor/body-card-components.tsx                      *)
(* ================================================================== *)

Module BodyCardComponents.
Import TextEncoding JS Types.

Definition QUOTE : Z := 34.      (* the double quote *)
Definition SLASH : Z := 47.
Definition BACKSLASH : Z := 92.
Definition DOT : Z := 46.

(** The literal part of the pattern: a space, [filename=] and the opening
    quote. *)
Definition FILENAME_PREFIX : JSString :=
  lit " filename=" ++ [QUOTE].

(** The pattern anchored at the head of [s]: the prefix, then as many
    non-quote code units as there are (at least one), then a quote.
    The group is the run between the quotes. *)
Definition matchHere (s : JSString) : option JSString :=
  match stripPrefix FILENAME_PREFIX s with
  | None => None
  | Some r =>
    match span (fun c => negb (c =? QUOTE)) r with
    | ((_ :: _) as name, _ :: _) => Some name
    | _ => None
    end
  end.

(** [exec] of the filename pattern on [s]: group 1 of the leftmost
    match. *)
Fixpoint filenameMatch (s : JSString) : option JSString :=
  match matchHere s with
  | Some name => Some name
  | None =>
    match s with
    | [] => None
    | _ :: r => filenameMatch r
    end
  end.

(** [x || ""] on a string that may be [undefined]. *)
Definition orEmpty (x : option JSString) : JSString :=
  match x with
  | Some v => v
  | None => []
  end.

Definition getBodyDownloadFilename `{HeadersUtil}
    (url : JSString) (headers : AnyHeaders) : option JSString :=
  let contentDisposition :=
    orEmpty (getHeaderValue headers (lit "content-disposition")) in
  match filenameMatch contentDisposition with
  | Some suggestedFilename =>
    match last (split SLASH suggestedFilename) with
    | Some seg => last (split BACKSLASH seg)   (* strip any path info *)
    | None => None
    end
  | None =>
    match last (split SLASH url) with
    | Some urlBaseName =>
      if includes DOT urlBaseName then Some urlBaseName else None
    | None => None
    end
  end.

(** The vocabulary of the description of [getBodyDownloadFilename]:
    [s] holds, right after [pre], a filename directive quoting [name]. *)
Definition directiveAt (s pre name : JSString) : Prop :=
  name <> [] /\ ~ In QUOTE name /\
  exists post, s = pre ++ FILENAME_PREFIX ++ name ++ QUOTE :: post.

Definition hasDirective (s : JSString) : Prop :=
  exists pre name, directiveAt s pre name.

(** [name] is quoted by the first filename directive of [s]. *)
Definition firstDirective (s name : JSString) : Prop :=
  exists pre,
    directiveAt s pre name /\
    forall pre' name',
      directiveAt s pre' name' -> (List.length pre <= List.length pre')%nat.

(** [seg] is what follows the last [sep] of [s]: all of [s] if it has no
    [sep]. *)
Definition afterLast (sep : Z) (s seg : JSString) : Prop :=
  ~ In sep seg /\ (s = seg \/ exists pre, s = pre ++ sep :: seg).

(** [segs.join(sep)] *)
Fixpoint join (sep : Z) (segs : list JSString) : JSString :=
  match segs with
  | [] => []
  | [x] => x
  | x :: r => x ++ sep :: join sep r
  end.

(** What [ReadonlyBodyCardHeader] is given (its callbacks apart). *)
Record ReadonlyBodyCardHeaderProps : Type := {
  hdrBody : option Buffer;
  mimeType : option JSString;
  downloadFilename : option JSString;
  title : JSString;
  hdrExpanded : bool;
  selectedContentType : ViewableContentType;
  contentTypeOptions : list ViewableContentType;
  isPaidUser : bool
}.

(** What [BodyDecodingErrorBanner] is given. *)
Record BodyDecodingErrorBannerProps : Type := {
  error : ErrorLike;
  bannerHeaders : RawHeaders
}.

(** The external formatters: a string, or a failure on content that is
    malformed for the format. *)
Inductive FormatError : Type := MalformedContent (reason : JSString).

Class Formatters : Type := {
  formatContent : EditableContentType -> Buffer -> FormatError + JSString
}.

(** What [EditableBodyCardHeader] is given; [onBodyFormatted] is the list
    of buffers the callback hands upward when called. *)
Record EditableBodyCardHeaderProps : Type := {
  editBody : Buffer;
  onBodyFormatted : JSString -> list Buffer;
  editTitle : JSString;
  editExpanded : bool;
  editSelectedContentType : EditableContentType;
  editContentTypeOptions : list EditableContentType
}.

(** What [EditableBodyCardHeader] hands to [FormatButton]. *)
Record FormatButtonProps : Type := {
  format : EditableContentType;
  content : Buffer;
  onFormatted : JSString -> list Buffer
}.

Definition EditableBodyCardHeader (props : EditableBodyCardHeaderProps)
  : FormatButtonProps :=
  {| format := editSelectedContentType props;
     content := editBody props;
     onFormatted := onBodyFormatted props |}.

(** Modelled from the spec: a click on [FormatButton] of
    common/format-button, whose source is missing. The formatter for the selected type runs on the
    body; its result goes to [onFormatted]; a failure is surfaced and
    nothing is formatted. The result is the failure, if any, and the
    buffers handed upward. *)
Definition formatButtonClick `{Formatters} (props : FormatButtonProps)
  : option FormatError * list Buffer :=
  match formatContent (format props) (content props) with
  | inl e => (Some e, [])
  | inr text => (None, onFormatted props text)
  end.

End BodyCardComponents.

(* ================================================================== *)
(** ** mobx reactions                                                  *)
(* ================================================================== *)

Module Mobx.

(** A live [reaction]: the value its data function returned last. *)
Record Reaction (V : Type) : Type := { lastValue : V }.

Arguments lastValue {V} r.

(** [reaction(expression, effect, { fireImmediately })]: the data function
    runs once, on the current state of what it observes; with
    [fireImmediately] the effect runs on that first value. The third
    component is the value the effect was fired with, if it was. *)
Definition reaction {V S} (value : V) (effect : V -> S -> S)
    (fireImmediately : bool) (s : S) : Reaction V * S * option V :=
  if fireImmediately
  then ({| lastValue := value |}, effect value s, Some value)
  else ({| lastValue := value |}, s, None).

(** Something the data function read has changed: it runs again, and the
    effect runs when the value it returns is not the one before. No
    [delay] is set, so this happens within the change itself. *)
Definition invalidate {V S} (eqb : V -> V -> bool) (r : Reaction V)
    (value : V) (effect : V -> S -> S) (s : S)
  : Reaction V * S * option V :=
  if eqb (lastValue r) value
  then (r, s, None)
  else ({| lastValue := value |}, effect value s, Some value).

End Mobx.

(* ================================================================== *)
(** ** HttpBreakpointBodyCard                                          *)
(* ================================================================== *)

Module HttpBreakpointBodyCard.
Import TextEncoding JS Types BodyCardComponents.

Inductive Direction : Set := left | right.

Record Props : Type := {
  title : JSString;
  direction : Direction;
  collapsed : bool;
  expanded : bool;
  exchangeId : JSString;
  body : Buffer;
  rawHeaders : RawHeaders
}.

(** The observable field of the card. *)
Record Card : Type := { contentType : EditableContentType }.

Definition initialCard : Card := {| contentType := "text"%string |}.

Definition onChangeContentType (value : string) (self : Card) : Card :=
  {| contentType := value |}.

(** [x || 'text'] on a tag that may be [undefined] (or empty). *)
Definition orText (x : option EditableContentType) : EditableContentType :=
  match x with
  | Some t => if String.eqb t EmptyString then "text"%string else t
  | None => "text"%string
  end.

Section Reaction.
Context `{HeadersUtil} `{ContentTypes}.

(** The data function of the reaction. *)
Definition contentTypeHeader (props : Props) : option JSString :=
  getHeaderValue (OfRawHeaders (rawHeaders props)) (lit "content-type").

(** The effect of the reaction. *)
Definition onContentTypeHeader (contentTypeHeader : option JSString)
    (self : Card) : Card :=
  {| contentType := orText (getEditableContentType contentTypeHeader) |}.

Definition eqbHeaderValue (x y : option JSString) : bool :=
  match x, y with
  | Some a, Some b => eqbString a b
  | None, None => true
  | _, _ => false
  end.

(** A mounted card: its field, the reaction [componentDidMount] set up,
    and the values the effect has been fired with so far, oldest first. *)
Record Mounted : Type := {
  card : Card;
  subscription : Mobx.Reaction (option JSString);
  fired : list (option JSString)
}.

Definition logged (log : list (option JSString))
    (r : Mobx.Reaction (option JSString) * Card * option (option JSString))
  : Mounted :=
  let '(sub, self, f) := r in
  {| card := self;
     subscription := sub;
     fired := match f with Some v => log ++ [v] | None => log end |}.

Definition componentDidMount (props : Props) (self : Card) : Mounted :=
  logged [] (Mobx.reaction (contentTypeHeader props) onContentTypeHeader
                           true self).

(** What happens to a mounted card. *)
Inductive Event : Type :=
| PropsChanged (props : Props)         (* the owner passes new props *)
| ContentTypePicked (value : string).  (* the user picks in the selector *)

Definition step (m : Mounted) (e : Event) : Mounted :=
  match e with
  | PropsChanged props =>
    logged (fired m)
      (Mobx.invalidate eqbHeaderValue (subscription m)
         (contentTypeHeader props) onContentTypeHeader (card m))
  | ContentTypePicked value =>
    {| card := onChangeContentType value (card m);
       subscription := subscription m;
       fired := fired m |}
  end.

Definition run (m : Mounted) (es : list Event) : Mounted :=
  fold_left step es m.

(** The header values the data function has seen in [es], in order. *)
Fixpoint observed (es : list Event) : list (option JSString) :=
  match es with
  | [] => []
  | PropsChanged props :: r => contentTypeHeader props :: observed r
  | ContentTypePicked _ :: r => observed r
  end.

(** The header value in force after [es], [h] being the one before. *)
Definition latestHeader (h : option JSString) (es : list Event)
  : option JSString :=
  List.last (observed es) h.

(** The values of [vs] that are not the value before them, [prev] being
    the value before the first. *)
Fixpoint changes (prev : option JSString) (vs : list (option JSString))
  : list (option JSString) :=
  match vs with
  | [] => []
  | v :: r =>
    if eqbHeaderValue prev v then changes v r else v :: changes v r
  end.

End Reaction.

(** [textEncoding], computed from [props.body]: text is shown and edited
    as UTF-8; for binary data that would be lossy, so [binary] (latin1)
    is used instead. *)
Definition textEncoding (body : Buffer) : BufferEncoding :=
  if isProbablyUtf8 body then utf8 else binary.

(** [onBodyChange]: the calls of [props.onChange] it makes. *)
Definition onBodyChange (props : Props) (body : JSString) : list Buffer :=
  [stringToBuffer body (textEncoding (HttpBreakpointBodyCard.body props))].

(** What the editor in the portal is given. *)
Record EditorProps : Type := {
  contentId : JSString;
  language : EditableContentType;
  value : JSString;
  onChange : JSString -> list Buffer;
  editorExpanded : bool
}.

Record Rendered : Type := {
  cardDirection : Direction;
  cardCollapsed : bool;
  cardExpanded : bool;
  header : EditableBodyCardHeaderProps;
  editor : EditorProps
}.

Definition directionName (d : Direction) : JSString :=
  match d with left => lit "left" | right => lit "right" end.

Definition render `{ContentTypes} (props : Props) (self : Card)
  : Rendered :=
  let bodyString :=
    bufferToString (body props) (textEncoding (body props)) in
  {| cardDirection := direction props;
     cardCollapsed := collapsed props;
     cardExpanded := expanded props;
     header :=
       {| editBody := body props;
          onBodyFormatted := onBodyChange props;
          editTitle := title props;
          editExpanded := expanded props;
          editSelectedContentType := contentType self;
          editContentTypeOptions := EditableContentTypes |};
     editor :=
       {| contentId :=
            lit "bp-" ++ exchangeId props ++ lit "-"
              ++ directionName (direction props);
          language := contentType self;
          value := bodyString;
          onChange := onBodyChange props;
          editorExpanded := expanded props |} |}.

(** The owner of the card keeps the body: each call of [props.onChange]
    replaces it. *)
Definition bodyAfter (body : Buffer) (calls : list Buffer) : Buffer :=
  List.last calls body.

(** The props of the next render: the same, around the owner's body. *)
Definition withBody (props : Props) (b : Buffer) : Props :=
  {| title := title props;
     direction := direction props;
     collapsed := collapsed props;
     expanded := expanded props;
     exchangeId := exchangeId props;
     body := b;
     rawHeaders := rawHeaders props |}.

End HttpBreakpointBodyCard.

(* ================================================================== *)
(** ** SentResponseBodyCard                                            *)
(* ================================================================== *)

Module SentResponseBodyCard.
Import TextEncoding JS Types BodyCardComponents.

(** A selection of content types you might want to try out, to explore
    your encoded data. *)
Definition ENCODED_DATA_CONTENT_TYPES : list ViewableContentType :=
  ["text"; "raw"; "base64"; "image"]%string.

(** The guard in [componentDidMount] allows for a message that is not
    there, so [message] is optional here. *)
Record Props : Type := {
  collapsed : bool;
  expanded : bool;
  isPaidUser : bool;
  url : JSString;
  message : option ExchangeMessage
}.

(** The observable field of the card. *)
Record Card : Type := {
  selectedContentType : option ViewableContentType
}.

Definition eqbSelected (x : option ViewableContentType)
    (y : ViewableContentType) : bool :=
  match x with
  | Some c => String.eqb c y
  | None => false
  end.

Definition onChangeContentType (props : Props)
    (contentType : option ViewableContentType) (self : Card)
  : Outcome Card :=
  m <- deref (message props) ;;
  if eqbSelected contentType (Types.contentType m)
  then Returned {| selectedContentType := None |}
  else Returned {| selectedContentType := contentType |}.

(** The function [componentDidMount] hands to [autorun]: it runs at
    mount, and again whenever [props.message] changes. *)
Definition onMessage (props : Props) (self : Card) : Outcome Card :=
  match message props with
  | None => onChangeContentType props None self
  | Some _ => Returned self
  end.

(** [_.includes(compatibleContentTypes, selected) ? selected :
    message.contentType] *)
Definition decodedContentType
    (compatibleContentTypes : list ViewableContentType)
    (selected : option ViewableContentType)
    (messageContentType : ViewableContentType) : ViewableContentType :=
  match selected with
  | Some c =>
    if includesType compatibleContentTypes selected
    then c else messageContentType
  | None => messageContentType
  end.

(** [_.includes(ENCODED_DATA_CONTENT_TYPES, selected) ? selected : 'text'] *)
Definition encodedDataContentType
    (selected : option ViewableContentType) : ViewableContentType :=
  match selected with
  | Some c =>
    if includesType ENCODED_DATA_CONTENT_TYPES selected
    then c else "text"%string
  | None => "text"%string
  end.

(** What [ContentViewer] is given. *)
Record ContentViewerProps : Type := {
  contentId : JSString;
  rawContentType : option JSString;
  viewerContentType : ViewableContentType;
  viewerExpanded : bool;
  children : Buffer
}.

(** The three things [render] returns. *)
Inductive Rendered : Type :=
| DecodedBody (collapsed expanded : bool)
    (header : ReadonlyBodyCardHeaderProps) (viewer : ContentViewerProps)
| DecodingFailed (collapsed expanded : bool)
    (header : ReadonlyBodyCardHeaderProps)
    (banner : BodyDecodingErrorBannerProps)
    (viewer : option ContentViewerProps)
| Loading (collapsed expanded : bool)
    (header : ReadonlyBodyCardHeaderProps).

Definition render `{HeadersUtil} `{ContentTypes} (props : Props)
    (self : Card) : Outcome Rendered :=
  m <- deref (message props) ;;
  let compatibleContentTypes :=
    getCompatibleTypes (contentType m)
      (lastHeader (prop (lit "content-type") (headers m))) (body m) in
  let decodedContentType :=
    decodedContentType compatibleContentTypes (selectedContentType self)
      (contentType m) in
  match decoded (body m) with
  | Some decodedBody =>
    (* We have successfully decoded the body content, show it *)
    Returned (DecodedBody (collapsed props) (expanded props)
      {| hdrBody := Some decodedBody;
         mimeType :=
           getHeaderValue (OfHeaders (headers m)) (lit "content-type");
         downloadFilename :=
           getBodyDownloadFilename (url props) (OfHeaders (headers m));
         title := lit "Response body";
         hdrExpanded := expanded props;
         BodyCardComponents.selectedContentType := decodedContentType;
         contentTypeOptions := compatibleContentTypes;
         BodyCardComponents.isPaidUser := isPaidUser props |}
      {| contentId := id m;
         rawContentType :=
           lastHeader (prop (lit "content-type") (headers m));
         viewerContentType := decodedContentType;
         viewerExpanded := expanded props;
         children := decodedBody |})
  | None =>
    match decodingError (body m) with
    | Some error =>
      (* We have failed to decode the body content! Show the error and
         the raw encoded data instead *)
      let encodedBody :=
        match encoded (body m) with
        | EncodedBuffer b => Some b
        | NotABuffer => None
        end in
      let encodedDataContentType :=
        encodedDataContentType (selectedContentType self) in
      Returned (DecodingFailed (collapsed props) (expanded props)
        {| hdrBody := encodedBody;
           (* Ignore content type, as it's encoded *)
           mimeType := Some (lit "application/octet-stream");
           downloadFilename :=
             getBodyDownloadFilename (url props) (OfHeaders (headers m));
           title := lit "Response body";
           hdrExpanded := expanded props;
           BodyCardComponents.selectedContentType := encodedDataContentType;
           contentTypeOptions := ENCODED_DATA_CONTENT_TYPES;
           BodyCardComponents.isPaidUser := isPaidUser props |}
        {| error := error; bannerHeaders := rawHeaders m |}
        (match encodedBody with
         | Some b =>
           Some {| contentId := id m;
                   rawContentType := None;
                   viewerContentType := encodedDataContentType;
                   viewerExpanded := expanded props;
                   children := b |}
         | None => None
         end))
    | None =>
      (* No body content, but no error yet, show a loading spinner *)
      Returned (Loading (collapsed props) (expanded props)
        {| hdrBody := None;
           mimeType := None;
           downloadFilename := None;
           title := lit "Response body";
           hdrExpanded := expanded props;
           BodyCardComponents.selectedContentType := decodedContentType;
           contentTypeOptions := compatibleContentTypes;
           BodyCardComponents.isPaidUser := isPaidUser props |})
    end
  end.

(** The header of whatever was rendered. *)
Definition headerOf (r : Rendered) : ReadonlyBodyCardHeaderProps :=
  match r with
  | DecodedBody _ _ h _ => h
  | DecodingFailed _ _ h _ _ => h
  | Loading _ _ h => h
  end.

(** The states of the decoding, as the specification names them. *)
Inductive DecodingState : Set := Pending | Decoded | Failed.

(** Which of the three views was rendered. *)
Definition stateOf (r : Rendered) : DecodingState :=
  match r with
  | DecodedBody _ _ _ _ => Decoded
  | DecodingFailed _ _ _ _ _ => Failed
  | Loading _ _ _ => Pending
  end.

End SentResponseBodyCard.

(* ================================================================== *)
(** ** What the read-only header renders                               *)
(* ================================================================== *)

Module ReadonlyHeader.
Import TextEncoding JS Types BodyCardComponents.

(** A call of [saveFile(filename, mimeType, content)]. *)
Record SaveFile : Type := {
  fileName : JSString;
  fileMimeType : JSString;
  fileContent : Buffer
}.

(** The download button: its title, whether it is disabled, and what a
    click does. *)
Record DownloadButton : Type := {
  buttonTitle : JSString;
  buttonDisabled : bool;
  buttonClick : SaveFile
}.

(** The buttons in front of the header: expand or shrink, and download. *)
Record Buttons : Type := {
  expandShrink : bool;
  download : DownloadButton
}.

(** [x || 'application/octet-stream'] on a string that may be [undefined]
    (or empty). *)
Definition orOctetStream (x : option JSString) : JSString :=
  match x with
  | Some [] => lit "application/octet-stream"
  | Some v => v
  | None => lit "application/octet-stream"
  end.

(** What [ReadonlyBodyCardHeader] puts on the page: the buttons and the
    size pill (the byte length it hands to [getReadableSize]) only when
    there is a body; the selector and the heading always. *)
Record ReadonlyBodyCardHeaderView : Type := {
  buttons : option Buttons;
  pill : option Z;
  selectorValue : ViewableContentType;
  selectorOptions : list ViewableContentType;
  heading : JSString
}.

Definition ReadonlyBodyCardHeader (props : ReadonlyBodyCardHeaderProps)
  : ReadonlyBodyCardHeaderView :=
  {| buttons :=
       match hdrBody props with
       | Some body =>   (* Body may be undefined during decoding *)
         Some {| expandShrink := hdrExpanded props;
                 download :=
                   {| buttonTitle :=
                        if isPaidUser props
                        then lit "Save this body as a file"
                        else lit "With Pro: Save this body as a file";
                      buttonDisabled := negb (isPaidUser props);
                      buttonClick :=
                        {| fileName := orEmpty (downloadFilename props);
                           fileMimeType := orOctetStream (mimeType props);
                           fileContent := body |} |} |}
       | None => None
       end;
     pill :=
       match hdrBody props with
       | Some body => Some (Z.of_nat (List.length body))
       | None => None
       end;
     selectorValue := selectedContentType props;
     selectorOptions := contentTypeOptions props;
     heading := title props |}.

(** The viewer of what [SentResponseBodyCard] rendered, if there is
    one. *)
Definition viewerOf (r : SentResponseBodyCard.Rendered)
  : option SentResponseBodyCard.ContentViewerProps :=
  match r with
  | SentResponseBodyCard.DecodedBody _ _ _ v => Some v
  | SentResponseBodyCard.DecodingFailed _ _ _ _ v => v
  | SentResponseBodyCard.Loading _ _ _ => None
  end.

(** What a click on the download button of a rendered card would save, if
    the button is there. *)
Definition savedBy (r : SentResponseBodyCard.Rendered) : option SaveFile :=
  match buttons (ReadonlyBodyCardHeader (SentResponseBodyCard.headerOf r)) with
  | Some b => Some (buttonClick (download b))
  | None => None
  end.

End ReadonlyHeader.

(* ================================================================== *)
(** ** Concrete inputs                                                 *)
(* ================================================================== *)

(** Simple implementations of the helpers whose source is missing, and a
    few messages and props, to run the cards on. *)
Module Samples.
Import TextEncoding JS Types BodyCardComponents.

Fixpoint rawHeader (name : JSString) (h : RawHeaders) : option JSString :=
  match h with
  | [] => None
  | (k, v) :: r => if eqbString k name then Some v else rawHeader name r
  end.

Definition sampleLastHeader (v : option HeaderValue) : option JSString :=
  match v with
  | Some (Single x) => Some x
  | Some (Multiple xs) => JS.last xs
  | None => None
  end.

Definition sampleHeadersUtil : HeadersUtil :=
  {| getHeaderValue := fun h name =>
       match h with
       | OfHeaders o => sampleLastHeader (prop name o)
       | OfRawHeaders r => rawHeader name r
       end;
     lastHeader := sampleLastHeader |}.

Definition sampleContentTypes : ContentTypes :=
  {| getCompatibleTypes := fun contentType _ _ =>
       [contentType; "text"; "raw"]%string;
     getEditableContentType := fun header =>
       match header with
       | Some v =>
         if eqbString v (lit "application/json") then Some "json"%string
         else if eqbString v (lit "text/html") then Some "html"%string
         else None
       | None => None
       end;
     EditableContentTypes :=
       ["text"; "json"; "xml"; "html"; "css"; "javascript"]%string |}.

(** Content types under which only a JSON message can be viewed raw. *)
Definition jsonRawContentTypes : ContentTypes :=
  {| getCompatibleTypes := fun contentType _ _ =>
       if String.eqb contentType "json"
       then ["json"; "text"; "raw"]%string
       else [contentType; "text"%string];
     getEditableContentType := fun _ => None;
     EditableContentTypes := ["text"]%string |}.

(** A formatter that rejects the body [{a:}] and leaves any other text
    as it is. *)
Definition sampleFormatters : Formatters :=
  {| formatContent := fun _ content =>
       if eqbString content (lit "{a:}")
       then inl (MalformedContent (lit "Unexpected token a"))
       else inr (bufferToString content utf8) |}.

Definition jsonHeaders : Headers :=
  [(lit "content-type", Single (lit "application/json"))].

Definition brotliHeaders : Headers :=
  [(lit "content-type", Single (lit "application/json"));
   (lit "content-encoding", Single (lit "brotli"))].

(** A decoded JSON response. *)
Definition decodedMessage : ExchangeMessage :=
  {| id := lit "a";
     contentType := "json"%string;
     headers := jsonHeaders;
     rawHeaders := [(lit "content-type", lit "application/json")];
     body := {| encoded := EncodedBuffer (lit "{}");
                decoded := Some (lit "{}");
                decodingError := None |} |}.

(** A response whose decoding failed. *)
Definition failedMessage : ExchangeMessage :=
  {| id := lit "b";
     contentType := "json"%string;
     headers := brotliHeaders;
     rawHeaders := [(lit "content-type", lit "application/json");
                    (lit "content-encoding", lit "brotli")];
     body := {| encoded := EncodedBuffer [0x1B; 0x03; 0x00];
                decoded := None;
                decodingError :=
                  Some {| code := Some (lit "UNKNOWN_ENCODING");
                          message := Some (lit "Unknown encoding") |} |} |}.

(** A plain-text response that is still being decoded. *)
Definition pendingMessage : ExchangeMessage :=
  {| id := lit "c";
     contentType := "text"%string;
     headers := [];
     rawHeaders := [];
     body := {| encoded := EncodedBuffer (lit "hello");
                decoded := None;
                decodingError := None |} |}.

(** The response card around a message. *)
Definition withMessage (m : ExchangeMessage) : SentResponseBodyCard.Props :=
  {| SentResponseBodyCard.collapsed := false;
     SentResponseBodyCard.expanded := false;
     SentResponseBodyCard.isPaidUser := true;
     SentResponseBodyCard.url := lit "https://example.com/data.json";
     SentResponseBodyCard.message := Some m |}.

(** A [content-disposition] naming a file with a path in front. *)
Definition attachmentHeaders : RawHeaders :=
  [(lit "content-disposition",
    lit "attachment; filename=" ++ [QUOTE] ++ lit "dir/sub\report.pdf"
      ++ [QUOTE])].


Definition jsonProps : HttpBreakpointBodyCard.Props :=
  {| HttpBreakpointBodyCard.title := lit "Request body";
     HttpBreakpointBodyCard.direction := HttpBreakpointBodyCard.right;
     HttpBreakpointBodyCard.collapsed := false;
     HttpBreakpointBodyCard.expanded := false;
     HttpBreakpointBodyCard.exchangeId := lit "x1";
     HttpBreakpointBodyCard.body := lit "{}";
     HttpBreakpointBodyCard.rawHeaders :=
       [(lit "content-type", lit "application/json")] |}.

Definition malformedProps : HttpBreakpointBodyCard.Props :=
  {| HttpBreakpointBodyCard.title := lit "Request body";
     HttpBreakpointBodyCard.direction := HttpBreakpointBodyCard.right;
     HttpBreakpointBodyCard.collapsed := false;
     HttpBreakpointBodyCard.expanded := false;
     HttpBreakpointBodyCard.exchangeId := lit "x1";
     HttpBreakpointBodyCard.body := lit "{a:}";
     HttpBreakpointBodyCard.rawHeaders :=
       [(lit "content-type", lit "application/json")] |}.

Definition jsonCard : HttpBreakpointBodyCard.Card :=
  {| HttpBreakpointBodyCard.contentType := "json"%string |}.

End Samples.

(* ================================================================== *)
(** * Properties                                                       *)
(* ================================================================== *)

(** ** The text encodings give the bytes back *)

Module TextEncodingFacts.
Import TextEncoding.

Ltac unfold_ranges :=
  unfold isHighSurrogate, isLowSurrogate, REPLACEMENT, isByte, isScalar in *;
  unfold inRange, secondLo, secondHi in *.

Ltac bool_to_Z :=
  repeat match goal with
  | H : (_ && _)%bool = true |- _ => apply andb_true_iff in H; destruct H
  | H : (_ && _)%bool = false |- _ => apply andb_false_iff in H
  | H : (_ <=? _) = true |- _ => apply Z.leb_le in H
  | H : (_ <=? _) = false |- _ => apply Z.leb_gt in H
  | H : (_ <? _) = true |- _ => apply Z.ltb_lt in H
  | H : (_ <? _) = false |- _ => apply Z.ltb_ge in H
  | H : (_ =? _) = true |- _ => apply Z.eqb_eq in H
  | H : (_ =? _) = false |- _ => apply Z.eqb_neq in H
  end.

Lemma utf16Units_scalar (c : Z) (cs : list Z) :
  isScalar c ->
  utf16CodePoints (utf16Units c ++ cs) = c :: utf16CodePoints cs.
Proof.
  intros Hc. unfold utf16Units.
  destruct (c <? 0x10000) eqn:E.
  - cbn [app utf16CodePoints]. unfold_ranges. bool_to_Z.
    destruct ((0xD800 <=? c) && (c <=? 0xDBFF))%bool eqn:E1;
      [ bool_to_Z; lia | ].
    destruct ((0xDC00 <=? c) && (c <=? 0xDFFF))%bool eqn:E2;
      [ bool_to_Z; lia | reflexivity ].
  - cbn [app utf16CodePoints]. unfold_ranges. bool_to_Z.
    assert (Hq : 0 <= (c - 0x10000) / 1024 < 1024)
      by (split; [ apply Z.div_pos | apply Z.div_lt_upper_bound ]; lia).
    assert (Hr : 0 <= (c - 0x10000) mod 1024 < 1024)
      by (apply Z.mod_pos_bound; lia).
    pose proof (Z.div_mod (c - 0x10000) 1024 ltac:(lia)) as Hdm.
    replace ((0xD800 <=? 0xD800 + (c - 0x10000) / 1024)
             && (0xD800 + (c - 0x10000) / 1024 <=? 0xDBFF))%bool
      with true
      by (symmetry; apply andb_true_iff; split; apply Z.leb_le; lia).
    replace ((0xDC00 <=? 0xDC00 + (c - 0x10000) mod 1024)
             && (0xDC00 + (c - 0x10000) mod 1024 <=? 0xDFFF))%bool
      with true
      by (symmetry; apply andb_true_iff; split; apply Z.leb_le; lia).
    f_equal. lia.
Qed.

Lemma utf16_roundtrip (cs : list Z) :
  Forall isScalar cs ->
  utf16CodePoints (flat_map utf16Units cs) = cs.
Proof.
  induction 1 as [| c cs Hc _ IH]; [ reflexivity | ].
  cbn [flat_map]. rewrite utf16Units_scalar by assumption.
  now rewrite IH.
Qed.

Ltac divmod := Z.div_mod_to_equations; lia.

Lemma encode_one (b0 : Z) :
  0 <= b0 < 0x80 ->
  isScalar b0 /\ utf8EncodeCodePoint b0 = [b0].
Proof.
  intros Hb. split; [ unfold isScalar; lia | ].
  unfold utf8EncodeCodePoint.
  now replace (b0 <? 0x80) with true by (symmetry; apply Z.ltb_lt; lia).
Qed.

Lemma encode_two (b0 b1 : Z) :
  inRange 0xC2 0xDF b0 = true -> inRange 0x80 0xBF b1 = true ->
  isScalar ((b0 - 0xC0) * 64 + (b1 - 0x80)) /\
  utf8EncodeCodePoint ((b0 - 0xC0) * 64 + (b1 - 0x80)) = [b0; b1].
Proof.
  intros H0 H1. unfold_ranges. bool_to_Z.
  set (c := (b0 - 0xC0) * 64 + (b1 - 0x80)).
  assert (Hc : 0x80 <= c < 0x800) by (subst c; lia).
  split; [ lia | ].
  unfold utf8EncodeCodePoint.
  replace (c <? 0x80) with false by (symmetry; apply Z.ltb_ge; lia).
  replace (c <? 0x800) with true by (symmetry; apply Z.ltb_lt; lia).
  f_equal; [ | f_equal ]; subst c; divmod.
Qed.

Lemma encode_three (b0 b1 b2 : Z) :
  inRange 0xE0 0xEF b0 = true ->
  inRange (secondLo b0) (secondHi b0) b1 = true ->
  inRange 0x80 0xBF b2 = true ->
  isScalar ((b0 - 0xE0) * 4096 + (b1 - 0x80) * 64 + (b2 - 0x80)) /\
  utf8EncodeCodePoint ((b0 - 0xE0) * 4096 + (b1 - 0x80) * 64 + (b2 - 0x80))
  = [b0; b1; b2].
Proof.
  intros H0 H1 H2. unfold_ranges.
  destruct (b0 =? 0xE0) eqn:E0; destruct (b0 =? 0xED) eqn:ED;
    destruct (b0 =? 0xF0) eqn:F0; destruct (b0 =? 0xF4) eqn:F4;
    bool_to_Z; try lia;
    set (c := (b0 - 0xE0) * 4096 + (b1 - 0x80) * 64 + (b2 - 0x80));
    (assert (Hc : 0x800 <= c < 0xD800 \/ 0xE000 <= c < 0x10000)
       by (subst c; lia));
    (split; [ lia | ]);
    unfold utf8EncodeCodePoint;
    replace (c <? 0x80) with false by (symmetry; apply Z.ltb_ge; lia);
    replace (c <? 0x800) with false by (symmetry; apply Z.ltb_ge; lia);
    replace (c <? 0x10000) with true by (symmetry; apply Z.ltb_lt; lia);
    (f_equal; [ | f_equal; [ | f_equal ] ]); subst c; divmod.
Qed.

Lemma encode_four (b0 b1 b2 b3 : Z) :
  inRange 0xF0 0xF4 b0 = true ->
  inRange (secondLo b0) (secondHi b0) b1 = true ->
  inRange 0x80 0xBF b2 = true ->
  inRange 0x80 0xBF b3 = true ->
  isScalar ((b0 - 0xF0) * 262144 + (b1 - 0x80) * 4096
            + (b2 - 0x80) * 64 + (b3 - 0x80)) /\
  utf8EncodeCodePoint ((b0 - 0xF0) * 262144 + (b1 - 0x80) * 4096
                       + (b2 - 0x80) * 64 + (b3 - 0x80))
  = [b0; b1; b2; b3].
Proof.
  intros H0 H1 H2 H3. unfold_ranges.
  destruct (b0 =? 0xE0) eqn:E0; destruct (b0 =? 0xED) eqn:ED;
    destruct (b0 =? 0xF0) eqn:F0; destruct (b0 =? 0xF4) eqn:F4;
    bool_to_Z; try lia;
    set (c := (b0 - 0xF0) * 262144 + (b1 - 0x80) * 4096
              + (b2 - 0x80) * 64 + (b3 - 0x80));
    (assert (Hc : 0x10000 <= c <= 0x10FFFF) by (subst c; lia));
    (split; [ lia | ]);
    unfold utf8EncodeCodePoint;
    replace (c <? 0x80) with false by (symmetry; apply Z.ltb_ge; lia);
    replace (c <? 0x800) with false by (symmetry; apply Z.ltb_ge; lia);
    replace (c <? 0x10000) with false by (symmetry; apply Z.ltb_ge; lia);
    (f_equal; [ | f_equal; [ | f_equal; [ | f_equal ] ] ]); subst c; divmod.
Qed.

(** What strict decoding accepts, it decodes to scalar values whose
    encoding is the input. *)
Lemma utf8_decode_encode (n : nat) :
  forall bs : Buffer,
    (List.length bs <= n)%nat ->
    isBuffer bs ->
    strictlyUtf8 bs = true ->
    Forall isScalar (map orReplacement (utf8Decode bs)) /\
    flat_map utf8EncodeCodePoint (map orReplacement (utf8Decode bs)) = bs.
Proof.
  unfold strictlyUtf8, isBuffer.
  induction n as [| n IH]; intros bs Hlen Hbytes Hok.
  - destruct bs; [ split; [ constructor | reflexivity ] | simpl in Hlen; lia ].
  - destruct bs as [| b0 r0]; [ split; [ constructor | reflexivity ] | ].
    cbn [utf8Decode] in *.
    repeat match type of Hok with
      | context [if ?c then _ else _] => destruct c eqn:?
      | context [match ?r with [] => _ | _ :: _ => _ end] => destruct r
      end;
      cbn [forallb isSome andb map flat_map orReplacement List.length] in *;
      try discriminate.
    all: repeat match goal with
         | Hb : Forall isByte (_ :: _) |- _ => inversion Hb; subst; clear Hb
         end.
    all: match goal with
         | Hr : Forall isByte ?r, Hk : forallb isSome (utf8Decode ?r) = true
           |- _ => destruct (IH r ltac:(lia) Hr Hk) as [IHs IHe]
         end.
    + destruct (encode_one b0) as [Hs He];
        [ unfold isByte in *; bool_to_Z; lia | ].
      split; [ constructor; assumption | now rewrite He, IHe ].
    + match goal with
      | H0 : inRange _ _ b0 = true, H1 : inRange _ _ ?b1 = true |- _ =>
        destruct (encode_two b0 b1 H0 H1) as [Hs He]
      end.
      split; [ constructor; assumption | now rewrite He, IHe ].
    + match goal with
      | H0 : inRange 0xE0 0xEF b0 = true,
        H1 : inRange (secondLo b0) _ ?b1 = true,
        H2 : inRange 0x80 0xBF ?b2 = true |- _ =>
        destruct (encode_three b0 b1 b2 H0 H1 H2) as [Hs He]
      end.
      split; [ constructor; assumption | now rewrite He, IHe ].
    + match goal with
      | H0 : inRange 0xF0 0xF4 b0 = true,
        H1 : inRange (secondLo b0) _ ?b1 = true,
        H2 : inRange 0x80 0xBF ?b2 = true,
        H3 : inRange 0x80 0xBF ?b3 = true |- _ =>
        destruct (encode_four b0 b1 b2 b3 H0 H1 H2 H3) as [Hs He]
      end.
      split; [ constructor; assumption | now rewrite He, IHe ].
Qed.

Lemma utf8_roundtrip (b : Buffer) :
  isBuffer b -> strictlyUtf8 b = true ->
  stringToBuffer (bufferToString b utf8) utf8 = b.
Proof.
  intros Hb Hok.
  destruct (utf8_decode_encode (List.length b) b (le_n _) Hb Hok)
    as [Hs He].
  unfold stringToBuffer, bufferToString.
  now rewrite utf16_roundtrip.
Qed.

Lemma binary_roundtrip (b : Buffer) :
  isBuffer b ->
  stringToBuffer (bufferToString b binary) binary = b.
Proof.
  unfold stringToBuffer, bufferToString.
  induction 1 as [| x b Hx _ IH]; [ reflexivity | ].
  cbn [map]. rewrite IH. f_equal.
  apply Z.mod_small. exact Hx.
Qed.

(** Decoding on small inputs: the euro sign; a sequence cut short by an
    ASCII byte; a byte that never starts a sequence. *)
Example utf8Decode_euro :
  utf8Decode [0xE2; 0x82; 0xAC] = [Some 0x20AC].
Proof. reflexivity. Qed.

Example utf8Decode_cut_short :
  utf8Decode [0xE2; 0x82; 0x41] = [None; Some 0x41].
Proof. reflexivity. Qed.

(** Why [binary] is there: through [utf8], a byte that is not UTF-8 comes
    back as the three bytes of U+FFFD. *)
Example utf8_is_lossy :
  stringToBuffer (bufferToString [0xFF] utf8) utf8 = [0xEF; 0xBF; 0xBD].
Proof. reflexivity. Qed.

End TextEncodingFacts.

Module HttpBreakpointBodyCardText.
Import TextEncoding TextEncodingFacts JS Types BodyCardComponents.
Import HttpBreakpointBodyCard.

(** [utf8] is only chosen for what decodes without an invalid sequence. *)
Lemma textEncoding_utf8 (b : Buffer) :
  textEncoding b = utf8 -> strictlyUtf8 b = true.
Proof.
  unfold textEncoding, isProbablyUtf8.
  destruct (strictlyUtf8 b); [ reflexivity | discriminate ].
Qed.

(** C1. For every byte sequence [b], with [e] the encoding the card
    derives from [b] ([utf8] when [b] is probably UTF-8, [binary]
    otherwise), turning [b] into text with [e] and that text back into
    bytes with [e] gives exactly [b]. *)
Theorem textEncoding_roundtrip (b : Buffer) :
  isBuffer b ->
  stringToBuffer (bufferToString b (textEncoding b)) (textEncoding b) = b.
Proof.
  intros Hb. destruct (textEncoding b) eqn:E.
  - apply utf8_roundtrip; [ exact Hb | now apply textEncoding_utf8 ].
  - now apply binary_roundtrip.
Qed.

Lemma textEncoding_roundtrip_witness :
  isBuffer [0xE2; 0x82; 0xAC; 0x20; 0xF0; 0x9F; 0x98; 0x80] /\
  stringToBuffer
    (bufferToString [0xE2; 0x82; 0xAC; 0x20; 0xF0; 0x9F; 0x98; 0x80]
       (textEncoding [0xE2; 0x82; 0xAC; 0x20; 0xF0; 0x9F; 0x98; 0x80]))
    (textEncoding [0xE2; 0x82; 0xAC; 0x20; 0xF0; 0x9F; 0x98; 0x80])
  = [0xE2; 0x82; 0xAC; 0x20; 0xF0; 0x9F; 0x98; 0x80].
Proof.
  assert (Hb : isBuffer [0xE2; 0x82; 0xAC; 0x20; 0xF0; 0x9F; 0x98; 0x80])
    by (repeat constructor; discriminate).
  split; [ exact Hb | ].
  exact (textEncoding_roundtrip _ Hb).
Defined.

(** The text the editor shows, handed back unchanged, gives the owner the
    body it already has. *)
Corollary unchanged_text_keeps_body `{ContentTypes}
    (props : Props) (self : Card) :
  isBuffer (body props) ->
  onChange (editor (render props self))
           (value (editor (render props self)))
  = [body props].
Proof.
  intros Hb. cbn. unfold onBodyChange. f_equal.
  destruct (textEncoding (body props)) eqn:E.
  - apply utf8_roundtrip; [ exact Hb | now apply textEncoding_utf8 ].
  - now apply binary_roundtrip.
Qed.

Lemma only_nulls_are_control (b : Buffer) :
  Forall (fun x => x = 0) b -> filter isControlByte b = b.
Proof.
  induction 1 as [| x b Hx _ IH]; [ reflexivity | ].
  subst x. cbn. now rewrite IH.
Qed.

Lemma only_nulls_decode (b : Buffer) :
  Forall (fun x => x = 0) b -> strictlyUtf8 b = true.
Proof.
  unfold strictlyUtf8.
  induction 1 as [| x b Hx _ IH]; [ reflexivity | ].
  subst x. cbn. exact IH.
Qed.

(** C8. [classify] is a total function of the bytes: every buffer gets one
    of the two encodings; the empty buffer is [utf8]; a buffer of null
    bytes only is [binary]. *)
Theorem textEncoding_total :
  (forall b : Buffer, textEncoding b = utf8 \/ textEncoding b = binary) /\
  textEncoding [] = utf8 /\
  (forall b : Buffer,
     b <> [] -> Forall (fun x => x = 0) b -> textEncoding b = binary).
Proof.
  split; [ | split ].
  - intros b. unfold textEncoding. destruct (isProbablyUtf8 b); auto.
  - reflexivity.
  - intros b Hne Hz. unfold textEncoding, isProbablyUtf8.
    rewrite (only_nulls_decode b Hz). cbn [andb].
    unfold controlDominated, countControl.
    rewrite (only_nulls_are_control b Hz).
    destruct b as [| x r]; [ contradiction | ].
    replace (Z.of_nat (List.length (x :: r))
             <? 2 * Z.of_nat (List.length (x :: r)))
      with true; [ reflexivity | ].
    symmetry. apply Z.ltb_lt. cbn [List.length]. lia.
Qed.

Lemma textEncoding_total_witness :
  textEncoding [0; 0; 0] = binary.
Proof.
  apply (proj2 (proj2 textEncoding_total));
    [ discriminate | repeat constructor ].
Defined.

End HttpBreakpointBodyCardText.

(** ** The response body card of the send pane *)

Module SentResponseBodyCardFacts.
Import TextEncoding JS Types BodyCardComponents SentResponseBodyCard.

Lemma includesType_In (l : list ViewableContentType) (c : ViewableContentType) :
  includesType l (Some c) = true <-> In c l.
Proof.
  cbn. rewrite existsb_exists. split.
  - intros (x & Hx & E). apply String.eqb_eq in E. now subst.
  - intros Hc. exists c. split; [ assumption | apply String.eqb_refl ].
Qed.

(** C2, as stated, fails: with nothing selected the message's own content
    type is used, whether it is among the options or not. *)
Lemma decodedContentType_outside_options :
  ~ (forall (offerable : list ViewableContentType)
            (override : option ViewableContentType)
            (structural : ViewableContentType),
        In (decodedContentType offerable override structural) offerable).
Proof.
  intros H.
  specialize (H ["text"; "raw"]%string None "json"%string).
  cbn in H. destruct H as [H | [H | []]]; discriminate.
Qed.

Lemma decodedContentType_In
    (offerable : list ViewableContentType)
    (override : option ViewableContentType)
    (structural : ViewableContentType) :
  In structural offerable ->
  In (decodedContentType offerable override structural) offerable.
Proof.
  intros Hs. unfold decodedContentType.
  destruct override as [c |]; [ | assumption ].
  destruct (includesType offerable (Some c)) eqn:E; [ | assumption ].
  now apply includesType_In.
Qed.

Lemma encodedDataContentType_member (selected : option ViewableContentType) :
  In (encodedDataContentType selected) ENCODED_DATA_CONTENT_TYPES.
Proof.
  unfold encodedDataContentType.
  destruct selected as [c |]; [ | now left ].
  destruct (includesType ENCODED_DATA_CONTENT_TYPES (Some c)) eqn:E;
    [ now apply includesType_In | now left ].
Qed.

Section Render.
Context `{HeadersUtil} `{ContentTypes}.

(** Without a message there is nothing to render: reading its content
    type throws. *)
Remark render_without_message (props : Props) (self : Card) :
  message props = None -> render props self = TypeError.
Proof.
  intros Hm. unfold render. now rewrite Hm.
Qed.

(** Whatever is rendered, the content type its header shows as selected
    is one of the options the header offers, as long as the compatible
    types of a message hold its content type. *)
Lemma render_selected_among_options
    (props : Props) (self : Card) (m : ExchangeMessage) (r : Rendered) :
  message props = Some m ->
  In (contentType m)
     (getCompatibleTypes (contentType m)
        (lastHeader (prop (lit "content-type") (headers m))) (body m)) ->
  render props self = Returned r ->
  In (BodyCardComponents.selectedContentType (headerOf r))
     (contentTypeOptions (headerOf r)).
Proof.
  intros Hm Hin. unfold render. rewrite Hm. cbn [deref bind].
  destruct (decoded (body m)) as [d |];
    [ | destruct (decodingError (body m)) as [e |] ];
    intros [= <-]; cbn [headerOf BodyCardComponents.selectedContentType
                        contentTypeOptions].
  - now apply decodedContentType_In.
  - apply encodedDataContentType_member.
  - now apply decodedContentType_In.
Qed.

(** C2, amended. For every set of options that holds the message's content
    type, every selection and every content type of the message, the
    content type resolved for the decoded and the loading view is one of
    the options, and a selection that is not among the options is dropped
    for the message's content type; whenever the card renders one of these
    two views with these options, selection and content type, that is the
    content type its header shows, beside these options. *)
Theorem decodedContentType_member
    (offerable : list ViewableContentType)
    (override : option ViewableContentType)
    (structural : ViewableContentType) :
  In structural offerable ->
  In (decodedContentType offerable override structural) offerable /\
  (forall c, override = Some c -> ~ In c offerable ->
     decodedContentType offerable override structural = structural) /\
  (forall (props : Props) (self : Card) (m : ExchangeMessage),
     message props = Some m ->
     decoded (body m) <> None \/ decodingError (body m) = None ->
     getCompatibleTypes (contentType m)
       (lastHeader (prop (lit "content-type") (headers m))) (body m)
     = offerable ->
     selectedContentType self = override ->
     contentType m = structural ->
     exists r,
       render props self = Returned r /\
       contentTypeOptions (headerOf r) = offerable /\
       BodyCardComponents.selectedContentType (headerOf r)
       = decodedContentType offerable override structural).
Proof.
  intros Hs. split; [ | split ].
  - now apply decodedContentType_In.
  - unfold decodedContentType. intros c -> Hc.
    destruct (includesType offerable (Some c)) eqn:E; [ | reflexivity ].
    apply includesType_In in E. contradiction.
  - intros props self m Hm Hview <- <- <-.
    unfold render. rewrite Hm. cbn [deref bind].
    destruct (decoded (body m)) as [d |].
    + eexists. repeat split.
    + destruct Hview as [Hd | He]; [ now contradiction Hd | ].
      rewrite He. eexists. repeat split.
Qed.

(** C3. For every message whose decoding failed, whatever its content
    type and headers, the options offered for its encoded bytes are
    exactly text, raw, base64 and image, in this order. *)
Theorem failed_offers_encoded_data_types
    (props : Props) (self : Card) (m : ExchangeMessage) (e : ErrorLike) :
  message props = Some m ->
  decoded (body m) = None ->
  decodingError (body m) = Some e ->
  exists r,
    render props self = Returned r /\
    contentTypeOptions (headerOf r)
    = ["text"; "raw"; "base64"; "image"]%string.
Proof.
  intros Hm Hd He. unfold render. rewrite Hm. cbn [deref bind].
  rewrite Hd, He. eexists. split; reflexivity.
Qed.

(** C4, amended. For every message the card is given, which of the three
    views is rendered is a function of the message's body alone: the
    decoded view exactly when decoded bytes are there, the failure view
    exactly when they are not and a decoding error is, and the loading
    view exactly when neither is. *)
Theorem render_state_projection
    (props : Props) (self : Card) (m : ExchangeMessage) :
  message props = Some m ->
  exists r,
    render props self = Returned r /\
    (stateOf r = Decoded <-> decoded (body m) <> None) /\
    (stateOf r = Failed <->
       decoded (body m) = None /\ decodingError (body m) <> None) /\
    (stateOf r = Pending <->
       decoded (body m) = None /\ decodingError (body m) = None).
Proof.
  intros Hm. unfold render. rewrite Hm. cbn [deref bind].
  destruct (decoded (body m)) as [d |];
    [ | destruct (decodingError (body m)) as [e |] ];
    eexists; (split; [ reflexivity | ]); cbn [stateOf];
    repeat split; intros; try discriminate; try congruence;
    repeat match goal with H : _ /\ _ |- _ => destruct H end;
    try discriminate; try congruence.
Qed.

End Render.

Lemma decodedContentType_member_witness :
  In (decodedContentType ["text"; "text"; "raw"]%string
        (Some "image"%string) "text"%string)
     ["text"; "text"; "raw"]%string /\
  decodedContentType ["text"; "text"; "raw"]%string
    (Some "image"%string) "text"%string = "text"%string /\
  exists r,
    @render Samples.sampleHeadersUtil Samples.sampleContentTypes
       (Samples.withMessage Samples.pendingMessage)
       {| selectedContentType := Some "image"%string |} = Returned r /\
    contentTypeOptions (headerOf r) = ["text"; "text"; "raw"]%string /\
    BodyCardComponents.selectedContentType (headerOf r)
    = decodedContentType ["text"; "text"; "raw"]%string
        (Some "image"%string) "text"%string.
Proof.
  destruct (@decodedContentType_member
              Samples.sampleHeadersUtil Samples.sampleContentTypes
              ["text"; "text"; "raw"]%string (Some "image"%string)
              "text"%string)
    as (Hin & Hstale & Hshown).
  { left. reflexivity. }
  split; [ exact Hin | split ].
  - apply (Hstale "image"%string eq_refl). cbn. intuition discriminate.
  - apply (Hshown (Samples.withMessage Samples.pendingMessage) _
                  Samples.pendingMessage);
      try reflexivity.
    right. reflexivity.
Defined.

(** C4, as stated, fails: with no message there is no loading view, nor
    any other; reading the content type of the message throws. *)
Lemma render_no_payload_not_pending :
  ~ (forall (props : Props) (self : Card),
        message props = None ->
        exists r,
          @render Samples.sampleHeadersUtil Samples.sampleContentTypes
             props self = Returned r /\
          stateOf r = Pending).
Proof.
  intros Hall.
  destruct (Hall {| collapsed := false; expanded := false;
                    isPaidUser := true;
                    url := lit "https://example.com/data.json";
                    message := None |}
                 {| selectedContentType := None |} eq_refl)
    as (r & Hr & _).
  discriminate Hr.
Qed.

Lemma failed_offers_encoded_data_types_witness :
  exists r,
    @render Samples.sampleHeadersUtil Samples.sampleContentTypes
       (Samples.withMessage Samples.failedMessage) {| selectedContentType := Some "json"%string |}
    = Returned r /\
    contentTypeOptions (headerOf r)
    = ["text"; "raw"; "base64"; "image"]%string.
Proof.
  eapply (@failed_offers_encoded_data_types
            Samples.sampleHeadersUtil Samples.sampleContentTypes
            (Samples.withMessage Samples.failedMessage) _ Samples.failedMessage);
    reflexivity.
Defined.

Lemma render_state_projection_witness :
  exists r,
    @render Samples.sampleHeadersUtil Samples.sampleContentTypes
       (Samples.withMessage Samples.failedMessage) {| selectedContentType := None |}
    = Returned r /\
    (stateOf r = Decoded <-> decoded (body Samples.failedMessage) <> None) /\
    (stateOf r = Failed <->
       decoded (body Samples.failedMessage) = None /\
       decodingError (body Samples.failedMessage) <> None) /\
    (stateOf r = Pending <->
       decoded (body Samples.failedMessage) = None /\
       decodingError (body Samples.failedMessage) = None).
Proof.
  apply (@render_state_projection
           Samples.sampleHeadersUtil Samples.sampleContentTypes
           (Samples.withMessage Samples.failedMessage) {| selectedContentType := None |}
           Samples.failedMessage).
  reflexivity.
Defined.

(** The one case in which the function watching [props.message] acts is
    the one in which [onChangeContentType] has no message to compare
    with. *)
Remark onMessage_without_message (props : Props) (self : Card) :
  message props = None -> onMessage props self = TypeError.
Proof.
  intros Hm. unfold onMessage, onChangeContentType. now rewrite Hm.
Qed.

(** C6, as stated, fails: a selection made on one message is still there
    after the card is given another one. *)
Lemma onMessage_keeps_selection :
  ~ (forall (old new : ExchangeMessage) (self : Card),
        id old <> id new ->
        onMessage (Samples.withMessage new) self
        = Returned {| selectedContentType := None |}).
Proof.
  intros H.
  specialize (H Samples.pendingMessage Samples.decodedMessage
                {| selectedContentType := Some "raw"%string |}).
  cbn in H.
  assert (E : Returned {| selectedContentType := Some "raw"%string |}
              = Returned {| selectedContentType := None |})
    by (apply H; discriminate).
  discriminate E.
Qed.

(** C6, amended. Whenever the card is given a message, whichever it is,
    the function watching [props.message] returns with the stored
    selection as it was: it is not cleared. *)
Theorem onMessage_present (props : Props) (self : Card) (m : ExchangeMessage) :
  message props = Some m ->
  onMessage props self = Returned self.
Proof.
  intros Hm. unfold onMessage. now rewrite Hm.
Qed.

Lemma onMessage_present_witness :
  onMessage (Samples.withMessage Samples.decodedMessage)
            {| selectedContentType := Some "raw"%string |}
  = Returned {| selectedContentType := Some "raw"%string |}.
Proof.
  apply (onMessage_present (Samples.withMessage Samples.decodedMessage) _
                           Samples.decodedMessage).
  reflexivity.
Defined.

(** C7. For every content type the user picks: if it is the content type
    of the message, the one that is used when nothing is selected, the
    stored selection becomes absent; otherwise it becomes the pick. *)
Theorem onChangeContentType_pick
    (props : Props) (self : Card) (m : ExchangeMessage)
    (picked : ViewableContentType) :
  message props = Some m ->
  (picked = contentType m ->
     onChangeContentType props (Some picked) self
     = Returned {| selectedContentType := None |}) /\
  (picked <> contentType m ->
     onChangeContentType props (Some picked) self
     = Returned {| selectedContentType := Some picked |}).
Proof.
  intros Hm. unfold onChangeContentType. rewrite Hm.
  cbn [deref bind eqbSelected]. split; intros Hp.
  - apply String.eqb_eq in Hp. now rewrite Hp.
  - apply String.eqb_neq in Hp. now rewrite Hp.
Qed.

Lemma onChangeContentType_pick_witness :
  onChangeContentType (Samples.withMessage Samples.decodedMessage)
    (Some "json"%string) {| selectedContentType := Some "raw"%string |}
  = Returned {| selectedContentType := None |} /\
  onChangeContentType (Samples.withMessage Samples.decodedMessage)
    (Some "text"%string) {| selectedContentType := None |}
  = Returned {| selectedContentType := Some "text"%string |}.
Proof.
  split.
  - apply (proj1 (onChangeContentType_pick
                    (Samples.withMessage Samples.decodedMessage) _
                    Samples.decodedMessage "json"%string eq_refl)).
    reflexivity.
  - apply (proj2 (onChangeContentType_pick
                    (Samples.withMessage Samples.decodedMessage) _
                    Samples.decodedMessage "text"%string eq_refl)).
    discriminate.
Defined.

End SentResponseBodyCardFacts.

(** ** The reaction of the breakpoint body card *)

Module HttpBreakpointBodyCardReaction.
Import TextEncoding JS Types BodyCardComponents HttpBreakpointBodyCard.

Lemma eqbString_eq (s t : JSString) : eqbString s t = true <-> s = t.
Proof.
  unfold eqbString. destruct (list_eq_dec Z.eq_dec s t); split;
    intros; congruence.
Qed.

Lemma eqbHeaderValue_eq (x y : option JSString) :
  eqbHeaderValue x y = true <-> x = y.
Proof.
  destruct x as [a |], y as [b |]; cbn; try (split; congruence).
  rewrite eqbString_eq. split; congruence.
Qed.

Lemma last_cons {A} (l : list A) (a d : A) :
  List.last (a :: l) d = List.last l a.
Proof.
  revert a d. induction l as [| b l IH]; intros a d; [ reflexivity | ].
  change (List.last (a :: b :: l) d) with (List.last (b :: l) d).
  now rewrite (IH b d), (IH b a).
Qed.

Section Facts.
Context `{HeadersUtil} `{ContentTypes}.

(** One more observation of the header: the effect runs exactly when the
    value is new, and then sets the content type from it. *)
Lemma step_PropsChanged (m : Mounted) (props : Props) :
  let v := contentTypeHeader props in
  let m' := step m (PropsChanged props) in
  Mobx.lastValue (subscription m') = v /\
  (v = Mobx.lastValue (subscription m) -> m' = m) /\
  (v <> Mobx.lastValue (subscription m) ->
     fired m' = fired m ++ [v] /\
     contentType (card m') = orText (getEditableContentType v)).
Proof.
  cbn zeta. unfold step, Mobx.invalidate.
  destruct (eqbHeaderValue (Mobx.lastValue (subscription m))
                           (contentTypeHeader props)) eqn:E.
  - apply eqbHeaderValue_eq in E. cbn. repeat split.
    + now symmetry.
    + intros _. now destruct m.
    + congruence.
    + congruence.
  - cbn. repeat split; intros Hv; try reflexivity.
    symmetry in Hv. apply eqbHeaderValue_eq in Hv. congruence.
Qed.

(** Along any run, the reaction remembers the header value in force, and
    the effect has run once for each change of it. *)
Lemma run_invariant (es : list Event) :
  forall m : Mounted,
    Mobx.lastValue (subscription (run m es))
    = latestHeader (Mobx.lastValue (subscription m)) es /\
    fired (run m es)
    = fired m ++ changes (Mobx.lastValue (subscription m)) (observed es).
Proof.
  unfold latestHeader.
  induction es as [| e es IH]; intros m.
  - cbn. now rewrite app_nil_r.
  - destruct e as [props | picked].
    + change (run m (PropsChanged props :: es))
        with (run (step m (PropsChanged props)) es).
      destruct (IH (step m (PropsChanged props))) as [IHv IHf].
      destruct (step_PropsChanged m props) as (Hv & Hsame & Hnew).
      cbn zeta in *. rewrite IHv, IHf, Hv.
      cbn [observed changes]. split.
      * now rewrite last_cons.
      * destruct (eqbHeaderValue (Mobx.lastValue (subscription m))
                                 (contentTypeHeader props)) eqn:E.
        -- apply eqbHeaderValue_eq in E. now rewrite Hsame.
        -- assert (Hne : contentTypeHeader props
                         <> Mobx.lastValue (subscription m)).
           { intros Hv'. symmetry in Hv'.
             apply eqbHeaderValue_eq in Hv'. congruence. }
           destruct (Hnew Hne) as [-> _]. now rewrite <- app_assoc.
    + change (run m (ContentTypePicked picked :: es))
        with (run (step m (ContentTypePicked picked)) es).
      destruct (IH (step m (ContentTypePicked picked))) as [IHv IHf].
      rewrite IHv, IHf. cbn. split; reflexivity.
Qed.


End Facts.


End HttpBreakpointBodyCardReaction.

(** ** Formatting the body of the breakpoint card *)

Module HttpBreakpointBodyCardFormat.
Import TextEncoding JS Types BodyCardComponents HttpBreakpointBodyCard.

Section Facts.
Context `{Formatters} `{ContentTypes}.

(** C9. For every click on the format button: when the formatter of the
    selected content type fails on the body, the failure is what the
    click gives back, nothing is handed to the owner, and so the body and
    the text in the editor stay as they were; when it succeeds, the
    formatted text goes the way an edit of the editor to that text
    goes. *)
Theorem format_click (props : Props) (self : Card) :
  let rendered := render props self in
  let click := formatButtonClick (EditableBodyCardHeader (header rendered)) in
  (forall e,
     formatContent (contentType self) (body props) = inl e ->
     click = (Some e, []) /\
     bodyAfter (body props) (snd click) = body props /\
     value (editor (render (withBody props
                              (bodyAfter (body props) (snd click))) self))
     = value (editor rendered)) /\
  (forall text,
     formatContent (contentType self) (body props) = inr text ->
     click = (None, onChange (editor rendered) text)).
Proof.
  cbn zeta. unfold formatButtonClick.
  cbn [render header editor EditableBodyCardHeader format content
       onFormatted editSelectedContentType editBody onBodyFormatted
       onChange value].
  split.
  - intros e ->. cbn [snd bodyAfter List.last withBody body].
    repeat split.
  - now intros text ->.
Qed.

End Facts.

Lemma format_click_witness :
  @formatButtonClick Samples.sampleFormatters
    (EditableBodyCardHeader
       (header (@render Samples.sampleContentTypes
                  Samples.malformedProps Samples.jsonCard)))
  = (Some (MalformedContent (lit "Unexpected token a")), []).
Proof.
  apply (proj1 (@format_click Samples.sampleFormatters
                  Samples.sampleContentTypes
                  Samples.malformedProps Samples.jsonCard)
               (MalformedContent (lit "Unexpected token a"))).
  reflexivity.
Defined.

End HttpBreakpointBodyCardFormat.

(** ** The download file name *)

Module DownloadFilenameFacts.
Import TextEncoding JS Types BodyCardComponents.

(** *** [split] and [last] *)

Lemma split_nonempty (sep : Z) (s : JSString) : split sep s <> [].
Proof.
  destruct s as [| c r]; cbn; [ discriminate | ].
  destruct (c =? sep); [ discriminate | ].
  destruct (split sep r); discriminate.
Qed.

Lemma split_no_sep (sep : Z) (s : JSString) :
  Forall (fun seg => ~ In sep seg) (split sep s).
Proof.
  induction s as [| c r IH]; cbn.
  - constructor; [ intros [] | constructor ].
  - destruct (c =? sep) eqn:E.
    + constructor; [ intros [] | assumption ].
    + apply Z.eqb_neq in E.
      destruct (split sep r) as [| seg segs]; inversion IH; subst.
      * constructor; [ | constructor ]. intros [-> | []]. congruence.
      * constructor; [ | assumption ].
        intros [-> | Hin]; [ congruence | contradiction ].
Qed.

Lemma join_split (sep : Z) (s : JSString) : join sep (split sep s) = s.
Proof.
  induction s as [| c r IH]; [ reflexivity | ].
  cbn [split]. destruct (c =? sep) eqn:E.
  - apply Z.eqb_eq in E. subst c.
    pose proof (split_nonempty sep r) as Hne.
    destruct (split sep r) as [| seg segs]; [ contradiction | ].
    cbn [join app] in *. now rewrite IH.
  - pose proof (split_nonempty sep r) as Hne.
    destruct (split sep r) as [| seg segs]; [ contradiction | ].
    destruct segs as [| seg' segs]; cbn [join app] in *; now rewrite <- IH.
Qed.

Lemma last_join (sep : Z) (segs : list JSString) :
  segs <> [] ->
  exists seg,
    JS.last segs = Some seg /\
    (join sep segs = seg \/ exists pre, join sep segs = pre ++ sep :: seg).
Proof.
  induction segs as [| x r IH]; intros Hne; [ contradiction | ].
  destruct r as [| y r].
  - exists x. split; [ reflexivity | left; reflexivity ].
  - destruct IH as (seg & Hl & Hj); [ discriminate | ].
    exists seg. split; [ exact Hl | ]. right.
    change (join sep (x :: y :: r)) with (x ++ sep :: join sep (y :: r)).
    destruct Hj as [-> | (pre & ->)].
    + now exists x.
    + exists (x ++ sep :: pre). now rewrite <- app_assoc.
Qed.

Lemma last_In {A} (l : list A) (x : A) : JS.last l = Some x -> In x l.
Proof.
  induction l as [| a r IH]; [ discriminate | ].
  destruct r as [| b r].
  - intros [= ->]. now left.
  - intros Hl. right. now apply IH.
Qed.

(** The last piece of [s.split(sep)] is what follows the last [sep]. *)
Lemma last_split (sep : Z) (s : JSString) :
  exists seg, JS.last (split sep s) = Some seg /\ afterLast sep s seg.
Proof.
  destruct (last_join sep (split sep s) (split_nonempty sep s))
    as (seg & Hl & Hj).
  exists seg. split; [ exact Hl | ]. split.
  - pose proof (split_no_sep sep s) as Hall.
    rewrite Forall_forall in Hall. apply Hall. now apply last_In.
  - now rewrite join_split in Hj.
Qed.

(** *** The pattern *)

Lemma stripPrefix_Some (p s r : JSString) :
  stripPrefix p s = Some r <-> s = p ++ r.
Proof.
  revert s. induction p as [| a p IH]; intros s; cbn.
  - split; congruence.
  - destruct s as [| c s]; [ split; discriminate | ].
    destruct (a =? c) eqn:E.
    + apply Z.eqb_eq in E. subst c. rewrite IH. split; congruence.
    + apply Z.eqb_neq in E. split; [ discriminate | congruence ].
Qed.

Lemma span_spec (f : Z -> bool) (s a b : JSString) :
  span f s = (a, b) ->
  s = a ++ b /\ Forall (fun c => f c = true) a /\
  match b with [] => True | c :: _ => f c = false end.
Proof.
  revert a b. induction s as [| c r IH]; intros a b; cbn.
  - intros [= <- <-]. repeat split; constructor.
  - destruct (f c) eqn:E.
    + destruct (span f r) as [a' b'] eqn:Es. intros [= <- <-].
      destruct (IH a' b' eq_refl) as (-> & Ha & Hb).
      repeat split; [ constructor; assumption | assumption ].
    + intros [= <- <-]. repeat split; [ constructor | assumption ].
Qed.

Lemma span_app (f : Z -> bool) (a : JSString) (q : Z) (b : JSString) :
  Forall (fun c => f c = true) a -> f q = false ->
  span f (a ++ q :: b) = (a, q :: b).
Proof.
  intros Ha Hq. induction Ha as [| c a Hc _ IH]; cbn.
  - now rewrite Hq.
  - now rewrite Hc, IH.
Qed.

Lemma not_quote_true (c : Z) : negb (c =? QUOTE) = true <-> c <> QUOTE.
Proof.
  rewrite negb_true_iff. apply Z.eqb_neq.
Qed.

Lemma no_quote_Forall (name : JSString) :
  ~ In QUOTE name <-> Forall (fun c => negb (c =? QUOTE) = true) name.
Proof.
  rewrite Forall_forall. split.
  - intros Hn c Hc. apply not_quote_true. intros ->. contradiction.
  - intros Hall Hq. specialize (Hall QUOTE Hq). discriminate.
Qed.

(** The pattern matches at the head of [s] exactly when a directive
    starts there. *)
Lemma matchHere_spec (s name : JSString) :
  matchHere s = Some name <-> directiveAt s [] name.
Proof.
  unfold matchHere, directiveAt. split.
  - destruct (stripPrefix FILENAME_PREFIX s) as [r |] eqn:Ep;
      [ | discriminate ].
    apply stripPrefix_Some in Ep.
    destruct (span (fun c => negb (c =? QUOTE)) r) as [a b] eqn:Es.
    destruct (span_spec _ _ _ _ Es) as (Hr & Ha & Hb).
    destruct a as [| a0 a]; [ discriminate | ].
    destruct b as [| q b]; [ discriminate | ].
    intros [= <-]. split; [ discriminate | ]. split.
    + now apply no_quote_Forall.
    + exists b. apply negb_false_iff, Z.eqb_eq in Hb. subst.
      reflexivity.
  - intros (Hne & Hq & post & ->). cbn [app].
    replace (stripPrefix FILENAME_PREFIX
               (FILENAME_PREFIX ++ name ++ QUOTE :: post))
      with (Some (name ++ QUOTE :: post))
      by (symmetry; now apply stripPrefix_Some).
    rewrite span_app; [ | now apply no_quote_Forall | reflexivity ].
    destruct name; [ contradiction | reflexivity ].
Qed.

Lemma directiveAt_cons (c : Z) (s pre name : JSString) :
  directiveAt (c :: s) (c :: pre) name <-> directiveAt s pre name.
Proof.
  unfold directiveAt. split; intros (Hne & Hq & post & E);
    (split; [ assumption | split; [ assumption | exists post ] ]).
  - cbn in E. now injection E.
  - cbn. now rewrite E.
Qed.

Lemma directiveAt_head (c c' : Z) (s pre name : JSString) :
  directiveAt (c :: s) (c' :: pre) name -> c' = c.
Proof.
  intros (_ & _ & post & E). cbn in E. now injection E.
Qed.

(** [exec] finds the first directive. *)
Lemma filenameMatch_Some (s name : JSString) :
  filenameMatch s = Some name -> firstDirective s name.
Proof.
  induction s as [| c r IH].
  - discriminate.
  - cbn [filenameMatch].
    destruct (matchHere (c :: r)) as [n |] eqn:Em.
    + intros [= ->]. exists []. split; [ now apply matchHere_spec | ].
      intros; cbn; lia.
    + intros Hr. destruct (IH Hr) as (pre & Hd & Hmin).
      exists (c :: pre). split; [ now apply directiveAt_cons | ].
      intros pre' name' Hd'. destruct pre' as [| c' pre'].
      * apply matchHere_spec in Hd'. congruence.
      * pose proof (directiveAt_head _ _ _ _ _ Hd') as ->.
        apply (proj1 (directiveAt_cons _ _ _ _)) in Hd'. specialize (Hmin _ _ Hd').
        cbn. lia.
Qed.

(** [exec] fails only when there is no directive at all. *)
Lemma filenameMatch_None (s : JSString) :
  filenameMatch s = None -> ~ hasDirective s.
Proof.
  induction s as [| c r IH]; cbn [filenameMatch].
  - intros _ (pre & name & Hd). destruct pre as [| c' pre'].
    + apply matchHere_spec in Hd. discriminate Hd.
    + destruct Hd as (_ & _ & post & E). discriminate E.
  - destruct (matchHere (c :: r)) as [n |] eqn:Em; [ discriminate | ].
    intros Hr (pre & name & Hd). destruct pre as [| c' pre'].
    + apply matchHere_spec in Hd. congruence.
    + pose proof (directiveAt_head _ _ _ _ _ Hd) as ->.
      apply (proj1 (directiveAt_cons _ _ _ _)) in Hd. apply (IH Hr). now exists pre', name.
Qed.

Lemma app_same_length {A} (a a' b b' : list A) :
  List.length a = List.length a' -> a ++ b = a' ++ b' -> a = a' /\ b = b'.
Proof.
  revert a'. induction a as [| x a IH]; intros [| x' a'] Hl E;
    try discriminate; cbn in *.
  - now split.
  - injection E as -> E. injection Hl as Hl.
    destruct (IH a' Hl E) as [-> ->]. now split.
Qed.

Lemma first_sep_unique (sep : Z) (a a' b b' : JSString) :
  ~ In sep a -> ~ In sep a' ->
  a ++ sep :: b = a' ++ sep :: b' -> a = a'.
Proof.
  revert a'. induction a as [| x a IH]; intros [| x' a'] Ha Ha' E;
    cbn in *.
  - reflexivity.
  - injection E as E _. subst x'. exfalso. apply Ha'. now left.
  - injection E as E _. subst x. exfalso. apply Ha. now left.
  - injection E as -> E. f_equal. apply (IH a'); tauto.
Qed.

(** There is one first directive at most. *)
Lemma firstDirective_unique (s name name' : JSString) :
  firstDirective s name -> firstDirective s name' -> name = name'.
Proof.
  intros (pre & Hd & Hmin) (pre' & Hd' & Hmin').
  pose proof (Hmin _ _ Hd') as L1. pose proof (Hmin' _ _ Hd) as L2.
  destruct Hd as (_ & Hq & post & E), Hd' as (_ & Hq' & post' & E').
  rewrite E in E'.
  assert (Hl : List.length pre = List.length pre') by lia.
  destruct (app_same_length _ _ _ _ Hl E') as [_ E2].
  apply app_inv_head in E2.
  now apply (first_sep_unique QUOTE _ _ _ _ Hq Hq' E2).
Qed.

(** What follows the last [sep] is determined by the string. *)
Lemma afterLast_unique (sep : Z) (s seg seg' : JSString) :
  afterLast sep s seg -> afterLast sep s seg' -> seg = seg'.
Proof.
  intros [Hn [-> | (pre & ->)]] [Hn' [E | (pre' & E)]].
  - now symmetry.
  - subst seg. exfalso. apply Hn. apply in_or_app. right. now left.
  - subst seg'. exfalso. apply Hn'. apply in_or_app. right. now left.
  - apply (f_equal (@rev Z)) in E.
    rewrite !rev_app_distr in E. cbn [rev] in E.
    rewrite <- !app_assoc in E. cbn [app] in E.
    apply first_sep_unique in E.
    + rewrite <- (rev_involutive seg), <- (rev_involutive seg').
      now f_equal.
    + intros Hin. apply Hn. now apply in_rev.
    + intros Hin. apply Hn'. now apply in_rev.
Qed.

Lemma includes_In (c : Z) (s : JSString) : includes c s = true <-> In c s.
Proof.
  unfold includes. rewrite existsb_exists. split.
  - intros (x & Hx & E). apply Z.eqb_eq in E. now subst.
  - intros Hc. exists c. split; [ assumption | apply Z.eqb_refl ].
Qed.

Section Filename.
Context `{HeadersUtil}.

(** C10. For every url and headers: if the [content-disposition] value
    holds a filename directive, the result is the quoted name of the
    first one, cut down to what follows its last slash and then to what
    follows the last backslash of that; otherwise it is what follows the
    last slash of the url if that holds a dot, and nothing if not. *)
Theorem getBodyDownloadFilename_spec (url : JSString) (headers : AnyHeaders) :
  let contentDisposition :=
    orEmpty (getHeaderValue headers (lit "content-disposition")) in
  (forall name seg base,
     firstDirective contentDisposition name ->
     afterLast SLASH name seg ->
     afterLast BACKSLASH seg base ->
     getBodyDownloadFilename url headers = Some base) /\
  (forall seg,
     ~ hasDirective contentDisposition ->
     afterLast SLASH url seg ->
     (In DOT seg -> getBodyDownloadFilename url headers = Some seg) /\
     (~ In DOT seg -> getBodyDownloadFilename url headers = None)).
Proof.
  cbn zeta. unfold getBodyDownloadFilename.
  destruct (filenameMatch
              (orEmpty (getHeaderValue headers (lit "content-disposition"))))
    as [found |] eqn:Em.
  - apply filenameMatch_Some in Em. split.
    + intros name seg base Hf Hseg Hbase.
      rewrite (firstDirective_unique _ _ _ Em Hf).
      destruct (last_split SLASH name) as (seg' & -> & Hseg').
      rewrite (afterLast_unique _ _ _ _ Hseg' Hseg).
      destruct (last_split BACKSLASH seg) as (base' & -> & Hbase').
      now rewrite (afterLast_unique _ _ _ _ Hbase' Hbase).
    + intros seg Hno. exfalso. apply Hno.
      destruct Em as (pre & Hd & _). now exists pre, found.
  - split.
    + intros name seg base (pre & Hd & _). exfalso.
      apply (filenameMatch_None _ Em). now exists pre, name.
    + intros seg _ Hseg.
      destruct (last_split SLASH url) as (seg' & -> & Hseg').
      rewrite (afterLast_unique _ _ _ _ Hseg' Hseg).
      destruct (includes DOT seg) eqn:Ei; split; intros Hdot.
      * reflexivity.
      * apply includes_In in Ei. contradiction.
      * apply includes_In in Hdot. congruence.
      * reflexivity.
Qed.

End Filename.

(** On small inputs: the name comes from the url when it ends in a file
    name, from nowhere when it does not, and an empty quoted name is no
    directive. *)
Example filename_from_url :
  @getBodyDownloadFilename Samples.sampleHeadersUtil
     (lit "https://example.com/files/data.json") (OfRawHeaders [])
  = Some (lit "data.json").
Proof. reflexivity. Qed.

Example filename_none :
  @getBodyDownloadFilename Samples.sampleHeadersUtil
     (lit "https://example.com/download") (OfRawHeaders [])
  = None.
Proof. reflexivity. Qed.

Example filename_empty_quotes :
  @getBodyDownloadFilename Samples.sampleHeadersUtil
     (lit "https://example.com/a.txt")
     (OfRawHeaders [(lit "content-disposition",
                     lit "attachment; filename=" ++ [QUOTE; QUOTE])])
  = Some (lit "a.txt").
Proof. reflexivity. Qed.

Lemma getBodyDownloadFilename_spec_witness :
  @getBodyDownloadFilename Samples.sampleHeadersUtil
     (lit "https://example.com/download")
     (OfRawHeaders Samples.attachmentHeaders)
  = Some (lit "report.pdf").
Proof.
  apply (proj1 (@getBodyDownloadFilename_spec Samples.sampleHeadersUtil
                  (lit "https://example.com/download")
                  (OfRawHeaders Samples.attachmentHeaders))
               (lit "dir/sub\report.pdf") (lit "sub\report.pdf")).
  - apply filenameMatch_Some. reflexivity.
  - split.
    + cbn. intuition discriminate.
    + right. exists (lit "dir"). reflexivity.
  - split.
    + cbn. intuition discriminate.
    + right. exists (lit "sub"). reflexivity.
Defined.

End DownloadFilenameFacts.

(** ** More on the download file name *)

Module DownloadFilenameSafety.
Import TextEncoding JS Types BodyCardComponents DownloadFilenameFacts.

Lemma afterLast_suffix (sep : Z) (s seg : JSString) :
  afterLast sep s seg -> exists pre, s = pre ++ seg.
Proof.
  intros [_ [-> | (pre & ->)]].
  - now exists [].
  - exists (pre ++ [sep]). now rewrite <- app_assoc.
Qed.

Lemma afterLast_In (sep x : Z) (s seg : JSString) :
  afterLast sep s seg -> In x seg -> In x s.
Proof.
  intros Ha Hx. destruct (afterLast_suffix _ _ _ Ha) as (pre & ->).
  apply in_or_app. now right.
Qed.

Lemma directive_name_no_quote (s name : JSString) :
  firstDirective s name -> ~ In QUOTE name.
Proof.
  now intros (pre & (_ & Hq & _) & _).
Qed.

Lemma hasDirective_filenameMatch (s : JSString) :
  hasDirective s -> exists name, filenameMatch s = Some name.
Proof.
  intros Hd. destruct (filenameMatch s) as [name |] eqn:E.
  - now exists name.
  - exfalso. now apply (filenameMatch_None s E).
Qed.

Section Safety.
Context `{HeadersUtil}.

Lemma filename_without_slash
    (url : JSString) (headers : AnyHeaders) (f : JSString) :
  getBodyDownloadFilename url headers = Some f -> ~ In SLASH f.
Proof.
  unfold getBodyDownloadFilename.
  destruct (filenameMatch _) as [name |].
  - destruct (last_split SLASH name) as (seg & -> & Hseg).
    destruct (last_split BACKSLASH seg) as (base & -> & Hbase).
    intros [= <-] Hin. destruct Hseg as [Hno _]. apply Hno.
    now apply (afterLast_In BACKSLASH SLASH seg base).
  - destruct (last_split SLASH url) as (seg & -> & [Hno _]).
    destruct (includes DOT seg); [ | discriminate ].
    now intros [= <-].
Qed.

(** Whatever the url and the headers, a file name that is returned holds
    no slash. *)
Theorem downloadFilename_no_slash
    (url : JSString) (headers : AnyHeaders) (f : JSString) :
  getBodyDownloadFilename url headers = Some f -> ~ In SLASH f.
Proof.
  exact (filename_without_slash url headers f).
Qed.

(** With a filename directive in the header there is always a file name:
    an end piece of the quoted name, free of slashes, backslashes and
    quotes. *)
Theorem downloadFilename_from_directive
    (url : JSString) (headers : AnyHeaders) (name : JSString) :
  firstDirective
    (orEmpty (getHeaderValue headers (lit "content-disposition"))) name ->
  exists f,
    getBodyDownloadFilename url headers = Some f /\
    (exists pre, name = pre ++ f) /\
    ~ In SLASH f /\ ~ In BACKSLASH f /\ ~ In QUOTE f.
Proof.
  intros Hf. unfold getBodyDownloadFilename.
  destruct (hasDirective_filenameMatch
              (orEmpty (getHeaderValue headers (lit "content-disposition"))))
    as (found & Em).
  { destruct Hf as (pre & Hd & _). now exists pre, name. }
  rewrite Em. apply filenameMatch_Some in Em.
  rewrite (firstDirective_unique _ _ _ Em Hf).
  destruct (last_split SLASH name) as (seg & -> & Hseg).
  destruct (last_split BACKSLASH seg) as (base & -> & Hbase).
  exists base. split; [ reflexivity | ].
  destruct (afterLast_suffix _ _ _ Hseg) as (p1 & E1).
  destruct (afterLast_suffix _ _ _ Hbase) as (p2 & E2).
  split; [ | split; [ | split ] ].
  - exists (p1 ++ p2). now rewrite <- app_assoc, <- E2.
  - intros Hin. destruct Hseg as [Hno _]. apply Hno.
    now apply (afterLast_In BACKSLASH SLASH seg base).
  - now destruct Hbase.
  - intros Hin. apply (directive_name_no_quote _ _ Hf).
    apply (afterLast_In SLASH QUOTE name seg Hseg).
    now apply (afterLast_In BACKSLASH QUOTE seg base).
Qed.

(** The header comes first: with a filename directive in it, the url has
    no part in the file name. *)
Theorem downloadFilename_header_first
    (url url' : JSString) (headers : AnyHeaders) :
  hasDirective
    (orEmpty (getHeaderValue headers (lit "content-disposition"))) ->
  getBodyDownloadFilename url headers
  = getBodyDownloadFilename url' headers.
Proof.
  intros Hd. unfold getBodyDownloadFilename.
  destruct (hasDirective_filenameMatch _ Hd) as (found & ->).
  reflexivity.
Qed.

(** A quoted name without slash or backslash is the file name, as it
    is. *)
Theorem downloadFilename_plain_name
    (url : JSString) (headers : AnyHeaders) (name : JSString) :
  firstDirective
    (orEmpty (getHeaderValue headers (lit "content-disposition"))) name ->
  ~ In SLASH name -> ~ In BACKSLASH name ->
  getBodyDownloadFilename url headers = Some name.
Proof.
  intros Hf Hs Hb. unfold getBodyDownloadFilename.
  destruct (hasDirective_filenameMatch
              (orEmpty (getHeaderValue headers (lit "content-disposition"))))
    as (found & Em).
  { destruct Hf as (pre & Hd & _). now exists pre, name. }
  rewrite Em. apply filenameMatch_Some in Em.
  rewrite (firstDirective_unique _ _ _ Em Hf).
  destruct (last_split SLASH name) as (seg & -> & Hseg).
  assert (Es : seg = name).
  { apply (afterLast_unique SLASH name); [ exact Hseg | ].
    split; [ exact Hs | now left ]. }
  subst seg.
  destruct (last_split BACKSLASH name) as (base & -> & Hbase).
  f_equal. apply (afterLast_unique BACKSLASH name); [ exact Hbase | ].
  split; [ exact Hb | now left ].
Qed.

(** The directive needs the space in front of it: a header value without
    any space is passed over, and the file name is that of the url. *)
Theorem downloadFilename_needs_space
    (url : JSString) (headers : AnyHeaders) (seg : JSString) :
  ~ In 32 (orEmpty (getHeaderValue headers (lit "content-disposition"))) ->
  afterLast SLASH url seg ->
  (In DOT seg -> getBodyDownloadFilename url headers = Some seg) /\
  (~ In DOT seg -> getBodyDownloadFilename url headers = None).
Proof.
  intros Hsp Hseg. unfold getBodyDownloadFilename.
  destruct (filenameMatch _) as [found |] eqn:Em.
  - exfalso. apply Hsp. apply filenameMatch_Some in Em.
    destruct Em as (pre & (_ & _ & post & ->) & _).
    apply in_or_app. right. now left.
  - destruct (last_split SLASH url) as (seg' & -> & Hseg').
    rewrite (afterLast_unique _ _ _ _ Hseg' Hseg).
    destruct (includes DOT seg) eqn:Ei; split; intros Hdot.
    + reflexivity.
    + apply includes_In in Ei. contradiction.
    + apply includes_In in Hdot. congruence.
    + reflexivity.
Qed.

(** Without a filename directive, a url that ends in a slash gives no
    file name. *)
Theorem downloadFilename_url_trailing_slash
    (url : JSString) (headers : AnyHeaders) :
  ~ hasDirective
      (orEmpty (getHeaderValue headers (lit "content-disposition"))) ->
  getBodyDownloadFilename (url ++ [SLASH]) headers = None.
Proof.
  intros Hno. unfold getBodyDownloadFilename.
  destruct (filenameMatch _) as [found |] eqn:Em.
  - exfalso. apply Hno. apply filenameMatch_Some in Em.
    destruct Em as (pre & Hd & _). now exists pre, found.
  - destruct (last_split SLASH (url ++ [SLASH])) as (seg & -> & Hseg).
    assert (Es : seg = []).
    { apply (afterLast_unique SLASH (url ++ [SLASH])); [ exact Hseg | ].
      split; [ intros [] | right; now exists url ]. }
    now subst seg.
Qed.

End Safety.

Lemma downloadFilename_no_slash_witness :
  ~ In SLASH (lit "report.pdf").
Proof.
  apply (@downloadFilename_no_slash Samples.sampleHeadersUtil
           (lit "https://example.com/download")
           (OfRawHeaders Samples.attachmentHeaders)).
  reflexivity.
Defined.

Lemma downloadFilename_from_directive_witness :
  exists f,
    @getBodyDownloadFilename Samples.sampleHeadersUtil
       (lit "https://example.com/download")
       (OfRawHeaders Samples.attachmentHeaders) = Some f /\
    (exists pre, lit "dir/sub\report.pdf" = pre ++ f) /\
    ~ In SLASH f /\ ~ In BACKSLASH f /\ ~ In QUOTE f.
Proof.
  apply (@downloadFilename_from_directive Samples.sampleHeadersUtil).
  apply filenameMatch_Some. reflexivity.
Defined.

Lemma downloadFilename_header_first_witness :
  @getBodyDownloadFilename Samples.sampleHeadersUtil
     (lit "https://example.com/a.txt")
     (OfRawHeaders Samples.attachmentHeaders)
  = @getBodyDownloadFilename Samples.sampleHeadersUtil
     (lit "https://example.com/download")
     (OfRawHeaders Samples.attachmentHeaders).
Proof.
  apply (@downloadFilename_header_first Samples.sampleHeadersUtil).
  assert (Hf : firstDirective
                 (orEmpty (@getHeaderValue Samples.sampleHeadersUtil
                             (OfRawHeaders Samples.attachmentHeaders)
                             (lit "content-disposition")))
                 (lit "dir/sub\report.pdf"))
    by (apply filenameMatch_Some; reflexivity).
  destruct Hf as (pre & Hd & _). now exists pre, (lit "dir/sub\report.pdf").
Defined.

Lemma downloadFilename_plain_name_witness :
  @getBodyDownloadFilename Samples.sampleHeadersUtil
     (lit "https://example.com/download")
     (OfRawHeaders
        [(lit "content-disposition",
          lit "attachment; filename=" ++ [QUOTE] ++ lit "data.csv"
            ++ [QUOTE])])
  = Some (lit "data.csv").
Proof.
  apply (@downloadFilename_plain_name Samples.sampleHeadersUtil).
  - apply filenameMatch_Some. reflexivity.
  - cbn. intuition discriminate.
  - cbn. intuition discriminate.
Defined.

Lemma downloadFilename_needs_space_witness :
  @getBodyDownloadFilename Samples.sampleHeadersUtil
     (lit "https://example.com/files/a.txt")
     (OfRawHeaders
        [(lit "content-disposition",
          lit "filename=" ++ [QUOTE] ++ lit "b.txt" ++ [QUOTE])])
  = Some (lit "a.txt").
Proof.
  apply (@downloadFilename_needs_space Samples.sampleHeadersUtil
           (lit "https://example.com/files/a.txt")
           (OfRawHeaders
              [(lit "content-disposition",
                lit "filename=" ++ [QUOTE] ++ lit "b.txt" ++ [QUOTE])])
           (lit "a.txt")).
  - cbn. intuition discriminate.
  - split.
    + cbn. intuition discriminate.
    + right. exists (lit "https://example.com/files"). reflexivity.
  - cbn. intuition discriminate.
Defined.

Lemma downloadFilename_url_trailing_slash_witness :
  @getBodyDownloadFilename Samples.sampleHeadersUtil
     (lit "https://example.com/files.d" ++ [SLASH]) (OfRawHeaders [])
  = None.
Proof.
  apply (@downloadFilename_url_trailing_slash Samples.sampleHeadersUtil).
  apply filenameMatch_None. reflexivity.
Defined.

End DownloadFilenameSafety.

(** ** More on the response body card: what is shown and what is saved *)

Module SentResponseBodyCardViews.
Import TextEncoding JS Types BodyCardComponents SentResponseBodyCard.
Import SentResponseBodyCardFacts ReadonlyHeader.



(** The function watching [props.message] never stores anything: with a
    message it returns with the card as it was; without one, the reset it
    attempts throws, for want of a message to compare with. *)
Theorem onMessage_never_stores (props : Props) (self : Card) :
  onMessage props self
  = match message props with
    | Some _ => Returned self
    | None => TypeError
    end.
Proof.
  unfold onMessage, onChangeContentType.
  destruct (message props); reflexivity.
Qed.

Lemma encodedDataContentType_in (c : ViewableContentType) :
  In c ENCODED_DATA_CONTENT_TYPES -> encodedDataContentType (Some c) = c.
Proof.
  intros Hin. unfold encodedDataContentType.
  apply includesType_In in Hin. now rewrite Hin.
Qed.

Lemma encodedDataContentType_out (c : ViewableContentType) :
  ~ In c ENCODED_DATA_CONTENT_TYPES ->
  encodedDataContentType (Some c) = "text"%string.
Proof.
  intros Hout. unfold encodedDataContentType.
  destruct (includesType ENCODED_DATA_CONTENT_TYPES (Some c)) eqn:E;
    [ | reflexivity ].
  apply includesType_In in E. contradiction.
Qed.

Section Views.
Context `{HeadersUtil} `{ContentTypes}.

Local Abbreviation compatible m :=
  (getCompatibleTypes (contentType m)
     (lastHeader (prop (lit "content-type") (headers m))) (body m)).

(** Outside the failure view, [render] returns a view whose header shows
    what [decodedContentType] gives. *)
Lemma render_shows_decodedContentType
    (props : Props) (self : Card) (m : ExchangeMessage) :
  message props = Some m ->
  decoded (body m) <> None \/ decodingError (body m) = None ->
  exists r,
    render props self = Returned r /\
    BodyCardComponents.selectedContentType (headerOf r)
    = decodedContentType (compatible m) (selectedContentType self)
        (contentType m) /\
    contentTypeOptions (headerOf r) = compatible m.
Proof.
  intros Hm Hv. unfold render. rewrite Hm. cbn [deref bind].
  destruct (decoded (body m)) as [d |].
  - eexists. repeat split.
  - destruct Hv as [Hd | He]; [ now contradiction Hd | ].
    rewrite He. eexists. repeat split.
Qed.

(** In the failure view, [render] returns a view whose header shows what
    [encodedDataContentType] gives. *)
Lemma render_shows_encodedDataContentType
    (props : Props) (self : Card) (m : ExchangeMessage) (e : ErrorLike) :
  message props = Some m ->
  decoded (body m) = None ->
  decodingError (body m) = Some e ->
  exists r,
    render props self = Returned r /\
    BodyCardComponents.selectedContentType (headerOf r)
    = encodedDataContentType (selectedContentType self) /\
    contentTypeOptions (headerOf r) = ENCODED_DATA_CONTENT_TYPES.
Proof.
  intros Hm Hd He. unfold render. rewrite Hm. cbn [deref bind].
  rewrite Hd, He. eexists. repeat split.
Qed.

(** Whatever view is rendered, the content type its header shows as
    selected is one of the options the header offers: in the failure view
    always, in the other two as long as the compatible types of the
    message hold its content type. *)
Theorem shown_among_options
    (props : Props) (self : Card) (m : ExchangeMessage) :
  message props = Some m ->
  (decoded (body m) <> None \/ decodingError (body m) = None ->
   In (contentType m) (compatible m)) ->
  exists r,
    render props self = Returned r /\
    In (BodyCardComponents.selectedContentType (headerOf r))
       (contentTypeOptions (headerOf r)).
Proof.
  intros Hm Hin.
  destruct (decoded (body m)) as [d |] eqn:Hd;
    [ | destruct (decodingError (body m)) as [e |] eqn:He ].
  - destruct (render_shows_decodedContentType props self m Hm)
      as (r & Hr & Hs & Ho); [ left; congruence | ].
    exists r. split; [ exact Hr | ]. rewrite Hs, Ho.
    apply decodedContentType_In. apply Hin. left. congruence.
  - destruct (render_shows_encodedDataContentType props self m e Hm Hd He)
      as (r & Hr & Hs & Ho).
    exists r. split; [ exact Hr | ]. rewrite Hs, Ho.
    apply encodedDataContentType_member.
  - destruct (render_shows_decodedContentType props self m Hm)
      as (r & Hr & Hs & Ho); [ now right | ].
    exists r. split; [ exact Hr | ]. rewrite Hs, Ho.
    apply decodedContentType_In. apply Hin. now right.
Qed.

(** Outside the failure view, a pick among the options on offer is what
    the header shows next. *)
Theorem pick_is_shown
    (props : Props) (self : Card) (m : ExchangeMessage)
    (c : ViewableContentType) :
  message props = Some m ->
  decoded (body m) <> None \/ decodingError (body m) = None ->
  In c (compatible m) ->
  exists self' r,
    onChangeContentType props (Some c) self = Returned self' /\
    render props self' = Returned r /\
    BodyCardComponents.selectedContentType (headerOf r) = c.
Proof.
  intros Hm Hview Hc.
  exists (if String.eqb c (contentType m)
          then {| selectedContentType := None |}
          else {| selectedContentType := Some c |}).
  destruct (render_shows_decodedContentType props
              (if String.eqb c (contentType m)
               then {| selectedContentType := None |}
               else {| selectedContentType := Some c |}) m Hm Hview)
    as (r & Hr & Hs & _).
  exists r. split; [ | split; [ exact Hr | ] ].
  - unfold onChangeContentType. rewrite Hm. cbn [deref bind eqbSelected].
    now destruct (String.eqb c (contentType m)).
  - rewrite Hs. destruct (String.eqb c (contentType m)) eqn:E;
      cbn [selectedContentType decodedContentType].
    + apply String.eqb_eq in E. now subst.
    + apply includesType_In in Hc. now rewrite Hc.
Qed.

(** In the failure view, after a pick: a pick that is one of the four
    encoded-data types and is not the message's own content type is what
    the header shows; a pick of the message's own content type shows as
    text; a pick outside the four shows as text. *)
Theorem pick_in_failure_view
    (props : Props) (self : Card) (m : ExchangeMessage)
    (e : ErrorLike) (c : ViewableContentType) :
  message props = Some m ->
  decoded (body m) = None ->
  decodingError (body m) = Some e ->
  exists self' r,
    onChangeContentType props (Some c) self = Returned self' /\
    render props self' = Returned r /\
    (c <> contentType m -> In c ENCODED_DATA_CONTENT_TYPES ->
       BodyCardComponents.selectedContentType (headerOf r) = c) /\
    (c = contentType m ->
       BodyCardComponents.selectedContentType (headerOf r)
       = "text"%string) /\
    (~ In c ENCODED_DATA_CONTENT_TYPES ->
       BodyCardComponents.selectedContentType (headerOf r)
       = "text"%string).
Proof.
  intros Hm Hd He.
  exists (if String.eqb c (contentType m)
          then {| selectedContentType := None |}
          else {| selectedContentType := Some c |}).
  destruct (render_shows_encodedDataContentType props
              (if String.eqb c (contentType m)
               then {| selectedContentType := None |}
               else {| selectedContentType := Some c |}) m e Hm Hd He)
    as (r & Hr & Hs & _).
  exists r. split; [ | split; [ exact Hr | ] ].
  - unfold onChangeContentType. rewrite Hm. cbn [deref bind eqbSelected].
    now destruct (String.eqb c (contentType m)).
  - rewrite Hs. destruct (String.eqb c (contentType m)) eqn:E;
      cbn [selectedContentType].
    + apply String.eqb_eq in E. repeat split; intros; congruence.
    + apply String.eqb_neq in E. split; [ | split ].
      * intros _ Hin. exact (encodedDataContentType_in c Hin).
      * intros Hc. contradiction.
      * intros Hout. exact (encodedDataContentType_out c Hout).
Qed.

(** Whenever a viewer is rendered, it shows the body the header is about,
    of the message at hand, as the content type the header shows as
    selected. *)
Theorem viewer_agrees_with_header
    (props : Props) (self : Card) (m : ExchangeMessage) :
  message props = Some m ->
  exists r,
    render props self = Returned r /\
    forall v, viewerOf r = Some v ->
      hdrBody (headerOf r) = Some (children v) /\
      viewerContentType v
      = BodyCardComponents.selectedContentType (headerOf r) /\
      contentId v = id m.
Proof.
  intros Hm. unfold render. rewrite Hm. cbn [deref bind].
  destruct (decoded (body m)) as [d |];
    [ | destruct (decodingError (body m)) as [e |] ];
    eexists; (split; [ reflexivity | ]); cbn [viewerOf headerOf]; intros v.
  - intros [= <-]. repeat split.
  - destruct (encoded (body m)); [ | discriminate ].
    intros [= <-]. repeat split.
  - discriminate.
Qed.

(** A viewer and a download button are there together, and exactly when
    there is something to show: decoded bytes, or, after a decoding
    failure, encoded bytes that are a buffer. *)
Theorem body_shown_iff
    (props : Props) (self : Card) (m : ExchangeMessage) :
  message props = Some m ->
  exists r,
    render props self = Returned r /\
    (savedBy r <> None <-> viewerOf r <> None) /\
    (viewerOf r <> None <->
       decoded (body m) <> None \/
       (decodingError (body m) <> None /\
        exists b, encoded (body m) = EncodedBuffer b)).
Proof.
  intros Hm. unfold render. rewrite Hm. cbn [deref bind].
  destruct (decoded (body m)) as [d |];
    [ | destruct (decodingError (body m)) as [e |] ];
    eexists; (split; [ reflexivity | ]); unfold savedBy; cbn.
  - repeat split; intros; try discriminate. now left.
  - destruct (encoded (body m)) as [b |]; cbn.
    + repeat split; intros; try discriminate.
      right. split; [ discriminate | now exists b ].
    + repeat split; try (intros Hn; now contradiction Hn).
      intros [Hd | (_ & b & Hb)]; [ now contradiction Hd | discriminate Hb ].
  - repeat split; try (intros Hn; now contradiction Hn).
    intros [Hd | (He & _)]; [ now contradiction Hd | now contradiction He ].
Qed.

(** What the download button saves: the decoded bytes under the mime type
    of the content-type header (octet-stream without one), or, after a
    decoding failure, the encoded bytes as octet-stream whatever the
    headers say; under the download file name, or the empty name when
    there is none; never under a name with a slash or an empty mime
    type. *)
Theorem download_saves
    (props : Props) (self : Card) (m : ExchangeMessage) :
  message props = Some m ->
  exists r,
    render props self = Returned r /\
    forall call, savedBy r = Some call ->
      fileName call
      = orEmpty (getBodyDownloadFilename (url props)
                   (OfHeaders (headers m))) /\
      ~ In SLASH (fileName call) /\
      fileMimeType call <> [] /\
      (forall d, decoded (body m) = Some d ->
         fileContent call = d /\
         fileMimeType call
         = orOctetStream
             (getHeaderValue (OfHeaders (headers m))
                (lit "content-type"))) /\
      (decoded (body m) = None ->
         encoded (body m) = EncodedBuffer (fileContent call) /\
         fileMimeType call = lit "application/octet-stream").
Proof.
  intros Hm. unfold render. rewrite Hm. cbn [deref bind].
  assert (Hname :
    ~ In SLASH (orEmpty (getBodyDownloadFilename
                           (url props) (OfHeaders (headers m))))).
  { destruct (getBodyDownloadFilename (url props) (OfHeaders (headers m)))
      as [f |] eqn:Ef; cbn [orEmpty]; [ | intros [] ].
    now apply (DownloadFilenameSafety.filename_without_slash _ _ _ Ef). }
  assert (Hmime : forall x, orOctetStream x <> []).
  { intros [[| c v] |]; discriminate. }
  destruct (decoded (body m)) as [d |];
    [ | destruct (decodingError (body m)) as [e |] ];
    eexists; (split; [ reflexivity | ]); unfold savedBy; cbn; intros call.
  - intros [= <-]. cbn.
    split; [ reflexivity | split; [ exact Hname | split ] ];
      [ apply Hmime | split ].
    + intros d' [= <-]. now split.
    + discriminate.
  - destruct (encoded (body m)) as [b |]; cbn; [ | discriminate ].
    intros [= <-]. cbn.
    split; [ reflexivity | split; [ exact Hname | split ] ];
      [ discriminate | split ].
    + discriminate.
    + intros _. now split.
  - discriminate.
Qed.

(** Between two messages that are both in the decoded or the loading
    view, a selection that does not fit the message at hand is passed
    over, not dropped: picked on one message, it is not shown for a
    message it is not compatible with, whose own content type is shown,
    and it is shown again when the first message is back. *)
Theorem selection_comes_back
    (propsA propsB : Props) (mA mB : ExchangeMessage) (self : Card)
    (c : ViewableContentType) :
  message propsA = Some mA ->
  message propsB = Some mB ->
  decoded (body mA) <> None \/ decodingError (body mA) = None ->
  decoded (body mB) <> None \/ decodingError (body mB) = None ->
  In c (compatible mA) ->
  c <> contentType mA ->
  ~ In c (compatible mB) ->
  exists s rA rB,
    onChangeContentType propsA (Some c) self = Returned s /\
    onMessage propsB s = Returned s /\
    render propsB s = Returned rB /\
    BodyCardComponents.selectedContentType (headerOf rB) = contentType mB /\
    onMessage propsA s = Returned s /\
    render propsA s = Returned rA /\
    BodyCardComponents.selectedContentType (headerOf rA) = c.
Proof.
  intros HA HB HvA HvB Hc Hne Hnc.
  set (s := {| selectedContentType := Some c |}).
  destruct (render_shows_decodedContentType propsA s mA HA HvA)
    as (rA & HrA & HsA & _).
  destruct (render_shows_decodedContentType propsB s mB HB HvB)
    as (rB & HrB & HsB & _).
  exists s, rA, rB. repeat split; try assumption.
  - unfold onChangeContentType. rewrite HA. cbn [deref bind eqbSelected].
    apply String.eqb_neq in Hne. now rewrite Hne.
  - unfold onMessage. now rewrite HB.
  - rewrite HsB. cbn [s selectedContentType decodedContentType].
    destruct (includesType (compatible mB) (Some c)) eqn:E;
      [ | reflexivity ].
    apply includesType_In in E. contradiction.
  - unfold onMessage. now rewrite HA.
  - rewrite HsA. cbn [s selectedContentType decodedContentType].
    apply includesType_In in Hc. now rewrite Hc.
Qed.

End Views.

Lemma shown_among_options_witness :
  exists r,
    @render Samples.sampleHeadersUtil Samples.sampleContentTypes
       (Samples.withMessage Samples.pendingMessage)
       {| selectedContentType := Some "image"%string |} = Returned r /\
    In (BodyCardComponents.selectedContentType (headerOf r))
       (contentTypeOptions (headerOf r)).
Proof.
  apply (@shown_among_options
           Samples.sampleHeadersUtil Samples.sampleContentTypes
           (Samples.withMessage Samples.pendingMessage) _
           Samples.pendingMessage).
  - reflexivity.
  - intros _. left. reflexivity.
Defined.

Lemma pick_is_shown_witness :
  exists self' r,
    onChangeContentType (Samples.withMessage Samples.decodedMessage)
      (Some "raw"%string) {| selectedContentType := None |}
    = Returned self' /\
    @render Samples.sampleHeadersUtil Samples.sampleContentTypes
       (Samples.withMessage Samples.decodedMessage) self' = Returned r /\
    BodyCardComponents.selectedContentType (headerOf r) = "raw"%string.
Proof.
  apply (@pick_is_shown
           Samples.sampleHeadersUtil Samples.sampleContentTypes
           (Samples.withMessage Samples.decodedMessage)
           {| selectedContentType := None |}
           Samples.decodedMessage "raw"%string).
  - reflexivity.
  - left. discriminate.
  - right. right. left. reflexivity.
Defined.

Lemma pick_in_failure_view_witness :
  exists self' r,
    onChangeContentType (Samples.withMessage Samples.failedMessage)
      (Some "json"%string) {| selectedContentType := None |}
    = Returned self' /\
    @render Samples.sampleHeadersUtil Samples.sampleContentTypes
       (Samples.withMessage Samples.failedMessage) self' = Returned r /\
    ("json"%string <> contentType Samples.failedMessage ->
     In "json"%string ENCODED_DATA_CONTENT_TYPES ->
       BodyCardComponents.selectedContentType (headerOf r)
       = "json"%string) /\
    ("json"%string = contentType Samples.failedMessage ->
       BodyCardComponents.selectedContentType (headerOf r)
       = "text"%string) /\
    (~ In "json"%string ENCODED_DATA_CONTENT_TYPES ->
       BodyCardComponents.selectedContentType (headerOf r)
       = "text"%string).
Proof.
  eapply (@pick_in_failure_view
            Samples.sampleHeadersUtil Samples.sampleContentTypes
            (Samples.withMessage Samples.failedMessage)
            {| selectedContentType := None |}
            Samples.failedMessage);
    reflexivity.
Defined.

Lemma viewer_agrees_with_header_witness :
  exists r,
    @render Samples.sampleHeadersUtil Samples.sampleContentTypes
       (Samples.withMessage Samples.failedMessage)
       {| selectedContentType := Some "raw"%string |} = Returned r /\
    forall v, viewerOf r = Some v ->
      hdrBody (headerOf r) = Some (children v) /\
      viewerContentType v
      = BodyCardComponents.selectedContentType (headerOf r) /\
      contentId v = id Samples.failedMessage.
Proof.
  apply (@viewer_agrees_with_header
           Samples.sampleHeadersUtil Samples.sampleContentTypes
           (Samples.withMessage Samples.failedMessage) _
           Samples.failedMessage).
  reflexivity.
Defined.

Lemma body_shown_iff_witness :
  exists r,
    @render Samples.sampleHeadersUtil Samples.sampleContentTypes
       (Samples.withMessage Samples.pendingMessage)
       {| selectedContentType := None |} = Returned r /\
    (savedBy r <> None <-> viewerOf r <> None) /\
    (viewerOf r <> None <->
       decoded (body Samples.pendingMessage) <> None \/
       (decodingError (body Samples.pendingMessage) <> None /\
        exists b, encoded (body Samples.pendingMessage) = EncodedBuffer b)).
Proof.
  apply (@body_shown_iff
           Samples.sampleHeadersUtil Samples.sampleContentTypes
           (Samples.withMessage Samples.pendingMessage) _
           Samples.pendingMessage).
  reflexivity.
Defined.

Lemma download_saves_witness :
  exists r,
    @render Samples.sampleHeadersUtil Samples.sampleContentTypes
       (Samples.withMessage Samples.failedMessage)
       {| selectedContentType := None |} = Returned r /\
    forall call, savedBy r = Some call ->
      fileName call = lit "data.json" /\
      ~ In SLASH (fileName call) /\
      fileMimeType call <> [] /\
      (forall d, decoded (body Samples.failedMessage) = Some d ->
         fileContent call = d /\
         fileMimeType call
         = orOctetStream
             (@getHeaderValue Samples.sampleHeadersUtil
                (OfHeaders (headers Samples.failedMessage))
                (lit "content-type"))) /\
      (decoded (body Samples.failedMessage) = None ->
         encoded (body Samples.failedMessage)
         = EncodedBuffer (fileContent call) /\
         fileMimeType call = lit "application/octet-stream").
Proof.
  apply (@download_saves
           Samples.sampleHeadersUtil Samples.sampleContentTypes
           (Samples.withMessage Samples.failedMessage) _
           Samples.failedMessage).
  reflexivity.
Defined.

Lemma selection_comes_back_witness :
  exists s rA rB,
    onChangeContentType (Samples.withMessage Samples.decodedMessage)
      (Some "raw"%string) {| selectedContentType := None |} = Returned s /\
    onMessage (Samples.withMessage Samples.pendingMessage) s = Returned s /\
    @render Samples.sampleHeadersUtil Samples.jsonRawContentTypes
       (Samples.withMessage Samples.pendingMessage) s = Returned rB /\
    BodyCardComponents.selectedContentType (headerOf rB) = "text"%string /\
    onMessage (Samples.withMessage Samples.decodedMessage) s = Returned s /\
    @render Samples.sampleHeadersUtil Samples.jsonRawContentTypes
       (Samples.withMessage Samples.decodedMessage) s = Returned rA /\
    BodyCardComponents.selectedContentType (headerOf rA) = "raw"%string.
Proof.
  apply (@selection_comes_back
           Samples.sampleHeadersUtil Samples.jsonRawContentTypes
           (Samples.withMessage Samples.decodedMessage)
           (Samples.withMessage Samples.pendingMessage)
           Samples.decodedMessage Samples.pendingMessage
           {| selectedContentType := None |} "raw"%string).
  - reflexivity.
  - reflexivity.
  - left. discriminate.
  - right. reflexivity.
  - right. right. left. reflexivity.
  - discriminate.
  - cbn. intuition discriminate.
Defined.

End SentResponseBodyCardViews.

(** ** More on the breakpoint body card: picks, headers and editors *)

Module HttpBreakpointBodyCardRuns.
Import TextEncoding JS Types BodyCardComponents HttpBreakpointBodyCard.
Import HttpBreakpointBodyCardReaction.

Section Runs.
Context `{HeadersUtil} `{ContentTypes}.

(** Prop changes that bring the header value the reaction has already
    seen change nothing. *)
Lemma run_same_header (es : list Event) (m : Mounted) :
  Forall (fun e => exists props,
            e = PropsChanged props /\
            contentTypeHeader props = Mobx.lastValue (subscription m)) es ->
  run m es = m.
Proof.
  induction 1 as [| e es (props & -> & Hv) _ IH]; [ reflexivity | ].
  change (run m (PropsChanged props :: es))
    with (run (step m (PropsChanged props)) es).
  destruct (step_PropsChanged m props) as (_ & Hsame & _).
  cbn zeta in Hsame. now rewrite (Hsame Hv).
Qed.

(** What the user picks stays, through any number of prop changes, as
    long as the content-type header keeps its value; the effect does not
    run again. *)
Theorem pick_survives_same_header
    (props0 : Props) (self : Card) (es1 es2 : list Event) (v : string) :
  let h0 := contentTypeHeader props0 in
  let m1 := run (componentDidMount props0 self) es1 in
  let m2 := run m1 (ContentTypePicked v :: es2) in
  Forall (fun e => exists props,
            e = PropsChanged props /\
            contentTypeHeader props = latestHeader h0 es1) es2 ->
  contentType (card m2) = v /\ fired m2 = fired m1.
Proof.
  cbn zeta. intros Hes.
  destruct (run_invariant es1 (componentDidMount props0 self)) as [Hv _].
  change (run (run (componentDidMount props0 self) es1)
              (ContentTypePicked v :: es2))
    with (run (step (run (componentDidMount props0 self) es1)
                    (ContentTypePicked v)) es2).
  rewrite run_same_header; [ split; reflexivity | ].
  cbn [step subscription]. now rewrite Hv.
Qed.



(** The content id of the editor tells cards apart: two cards have the
    same one only for the same exchange and the same direction. *)
Theorem contentId_identifies (p1 p2 : Props) (s1 s2 : Card) :
  contentId (editor (render p1 s1)) = contentId (editor (render p2 s2)) ->
  exchangeId p1 = exchangeId p2 /\ direction p1 = direction p2.
Proof.
  cbn [render editor contentId]. intros E.
  apply app_inv_head in E.
  apply (f_equal (@rev Z)) in E. rewrite !rev_app_distr in E.
  destruct (direction p1), (direction p2); cbn in E.
  - injection E as E. apply (f_equal (@rev Z)) in E.
    rewrite !rev_involutive in E. now split.
  - discriminate E.
  - discriminate E.
  - injection E as E. apply (f_equal (@rev Z)) in E.
    rewrite !rev_involutive in E. now split.
Qed.

End Runs.

Lemma pick_survives_same_header_witness :
  contentType
    (card (@run Samples.sampleHeadersUtil Samples.sampleContentTypes
             (@run Samples.sampleHeadersUtil Samples.sampleContentTypes
                (@componentDidMount Samples.sampleHeadersUtil
                   Samples.sampleContentTypes Samples.jsonProps initialCard)
                [])
             [ContentTypePicked "xml"%string;
              PropsChanged Samples.malformedProps]))
  = "xml"%string.
Proof.
  apply (@pick_survives_same_header
           Samples.sampleHeadersUtil Samples.sampleContentTypes
           Samples.jsonProps initialCard []
           [PropsChanged Samples.malformedProps] "xml"%string).
  constructor; [ | constructor ].
  exists Samples.malformedProps. split; reflexivity.
Defined.


Lemma contentId_identifies_witness :
  exchangeId Samples.jsonProps = exchangeId Samples.malformedProps /\
  direction Samples.jsonProps = direction Samples.malformedProps.
Proof.
  apply (@contentId_identifies Samples.sampleContentTypes
           Samples.jsonProps Samples.malformedProps
           initialCard Samples.jsonCard).
  reflexivity.
Defined.

End HttpBreakpointBodyCardRuns.
